(** * BudgetWebAppData: the migration script [upload.py]

    A shallow embedding of the transform-and-load pipeline of [upload.py]
    (classes [Migration] and [Util]) and the properties of it that the
    specification states.

    - Python strings are byte strings ([string]); [str.lower] is modelled on
      ASCII letters.
    - A pandas [DataFrame] is a list of column names and a list of rows.
    - The database session, the extract files and the log are modelled by a
      trace of events; code that can raise lives in a small exception monad
      over that trace.
    - pandas pipelines that are not modelled call by call ([pd.merge],
      [pd.to_datetime], ...) are fields of a record the importers are
      parameterised by; every theorem about [import_all] holds for all of
      them.
    - Five importers assign the frame that [sanitize_columns] returns to
      [df.columns]; pandas raises there, so these importers end at that
      statement and what follows it is carried along but never run. *)

From Stdlib Require Import String Ascii List ZArith Bool Lia DecimalString Sorted.
From stdpp Require Import base gmap strings.
Import ListNotations.
Open Scope string_scope.
Open Scope list_scope.

(** ** Python [str] operations *)

Module PyStr.

Definition is_upper (c : ascii) : bool :=
  (65 <=? nat_of_ascii c)%nat && (nat_of_ascii c <=? 90)%nat.

Definition lower_char (c : ascii) : ascii :=
  if is_upper c then ascii_of_nat (nat_of_ascii c + 32) else c.

(** [s.lower()] *)
Fixpoint lower (s : string) : string :=
  match s with
  | EmptyString => EmptyString
  | String c s' => String (lower_char c) (lower s')
  end.

(** [s.replace(old, new)] for a non-empty [old]: every occurrence, left to
    right, without overlap. [skip] counts the characters of the current
    occurrence that are still to be passed over. *)
Fixpoint replace_from (old new : string) (skip : nat) (s : string) : string :=
  match s with
  | EmptyString => EmptyString
  | String c s' =>
      match skip with
      | S k => replace_from old new k s'
      | O =>
          if String.prefix old s
          then new +:+ replace_from old new (String.length old - 1) s'
          else String c (replace_from old new 0 s')
      end
  end.

Definition replace (old new s : string) : string := replace_from old new 0 s.

(** [sub in s] *)
Fixpoint contains (sub s : string) : bool :=
  String.prefix sub s ||
  match s with
  | EmptyString => false
  | String _ s' => contains sub s'
  end.

(** [sep.join(l)] *)
Fixpoint join (sep : string) (l : list string) : string :=
  match l with
  | [] => EmptyString
  | [x] => x
  | x :: l' => x +:+ sep +:+ join sep l'
  end.

(** [s.split(sep)] for a one-character [sep]; the result is never empty. *)
Fixpoint split (sep : ascii) (s : string) : list string :=
  match s with
  | EmptyString => [EmptyString]
  | String c s' =>
      if Ascii.eqb c sep then EmptyString :: split sep s'
      else match split sep s' with
           | h :: t => String c h :: t
           | [] => [String c EmptyString]
           end
  end.

(** [s.endswith(suffix)] *)
Definition endswith (s suffix : string) : bool :=
  String.prefix (String.rev suffix) (String.rev s).

(** Every character of [s] satisfies [p]. *)
Fixpoint all_chars (p : ascii -> bool) (s : string) : bool :=
  match s with
  | EmptyString => true
  | String c s' => p c && all_chars p s'
  end.

End PyStr.

(** ** Util.sanitize_columns: the column normaliser *)

(** The three statements of [Util.sanitize_columns] on one column name:
    [.str.replace(" ", "_").str.lower()], then [.str.replace("/", "")],
    then [.str.replace(".", "")]. One-character patterns are literal in
    every pandas version. *)
Definition sanitize_name (c : string) : string :=
  PyStr.replace "." "" (PyStr.replace "/" "" (PyStr.lower (PyStr.replace " " "_" c))).

(** A column name is canonical when it has no upper-case letter, no space,
    no slash and no period. *)
Definition canonical_char (c : ascii) : bool :=
  negb (PyStr.is_upper c) && negb (Ascii.eqb c " ") &&
  negb (Ascii.eqb c "/") && negb (Ascii.eqb c ".").

Definition canonical (c : string) : bool := PyStr.all_chars canonical_char c.

(** ** Data model: scalars, frames, columns *)

(** A cell of a DataFrame. [Float] is a finite float carried by its Python
    [repr] (which determines it); [NaN] is [np.nan]. *)
Inductive scalar :=
| NaN
| PyNone
| Str (s : string)
| Int (z : Z)
| Float (repr : string).

(** [pd.isna(x)] *)
Definition isna (x : scalar) : bool :=
  match x with
  | NaN | PyNone => true
  | _ => false
  end.

(** [str(x)] *)
Definition str (x : scalar) : string :=
  match x with
  | NaN => "nan"
  | PyNone => "None"
  | Str s => s
  | Int z => NilZero.string_of_int (Z.to_int z)
  | Float r => r
  end.

(** The dtype pandas gives a column: [read_csv] yields [int64] or [float64]
    for an all-numeric column and [object] for a column of strings. *)
Inductive dtype := int64 | float64 | object.

(** A DataFrame: the column labels and the rows (each as long as
    [columns]); after [reset_index(drop=True)] row [i] has index [i]. *)
Record DataFrame := { columns : list string; rows : list (list scalar) }.

Inductive exn :=
| ValueError (msg : string)
| KeyError (msg : string)
| IndexError (msg : string)
| AttributeError (msg : string)
| OtherError (class msg : string).

(** [str(e)] as the f-strings of the log messages render it. *)
Definition exn_message (e : exn) : string :=
  match e with
  | ValueError m | KeyError m | IndexError m
  | AttributeError m | OtherError _ m => m
  end.

Inductive result (A : Type) :=
| Ok (a : A)
| Raise (e : exn).
Arguments Ok {A} a.
Arguments Raise {A} e.

Definition is_ok {A} (r : result A) : bool :=
  match r with
  | Ok _ => true
  | Raise _ => false
  end.

(** The positions of the columns labelled [name]. *)
Fixpoint positions_from (i : nat) (name : string) (cols : list string) : list nat :=
  match cols with
  | [] => []
  | c :: cols' =>
      if String.eqb c name then i :: positions_from (S i) name cols'
      else positions_from (S i) name cols'
  end.

Definition positions (cols : list string) (name : string) : list nat :=
  positions_from 0 name cols.

Definition take_cells (ps : list nat) (row : list scalar) : list scalar :=
  List.map (fun i => nth i row NaN) ps.

(** The frame made of the columns labelled by [keys], in that order; a
    label carried by several columns selects all of them. *)
Definition select (df : DataFrame) (keys : list string) : DataFrame :=
  {| columns := flat_map (fun k => List.map (fun _ => k) (positions (columns df) k)) keys;
     rows := List.map (take_cells (flat_map (positions (columns df)) keys)) (rows df) |}.

(** [df[keys]] for a list of labels: every key must be a column. *)
Definition getitem (df : DataFrame) (keys : list string) : result DataFrame :=
  match List.find (fun k => negb (existsb (String.eqb k) (columns df))) keys with
  | Some k => Raise (KeyError k)
  | None => Ok (select df keys)
  end.

(** [df.empty]: some axis has length 0. *)
Definition empty (df : DataFrame) : bool :=
  match columns df, rows df with
  | [], _ | _, [] => true
  | _, _ => false
  end.

Definition map_cells (f : scalar -> scalar) (df : DataFrame) : DataFrame :=
  {| columns := columns df; rows := List.map (List.map f) (rows df) |}.

(** [df.replace({np.nan: None})] and [df.replace({"": None})] *)
Definition nan_to_none (x : scalar) : scalar :=
  match x with
  | NaN => PyNone
  | _ => x
  end.

Definition blank_to_none (x : scalar) : scalar :=
  match x with
  | Str EmptyString => PyNone
  | _ => x
  end.

(** [Util.sanitize_columns]: rewrites the labels of [df] in place and
    returns [df]; no statement of it can raise on string labels. *)
Definition sanitize_columns (df : DataFrame) : DataFrame :=
  {| columns := List.map sanitize_name (columns df); rows := rows df |}.

(** ** The type coercer: per-field expressions of the importers *)

Definition newline : string := String (ascii_of_nat 10) EmptyString.

(** [re.sub(r"\.0$", "", s)]: [$] matches at the end of [s] and just before
    a newline that ends [s]. *)
Definition sub_trailing_dot_zero (s : string) : string :=
  if PyStr.endswith s ".0" then String.substring 0 (String.length s - 2) s
  else if PyStr.endswith s (".0" +:+ newline)
       then String.substring 0 (String.length s - 3) s +:+ newline
       else s.

(** An element of [series.str.replace(old, new)]: pandas [>= 2.0] takes
    [old] literally; an element that is not a string becomes [NaN]. *)
Definition str_replace (old new : string) (x : scalar) : scalar :=
  match x with
  | Str s => Str (PyStr.replace old new s)
  | _ => NaN
  end.

(** [series.fillna(0)]: the zero is a float in a [float64] column. *)
Definition fillna_zero (dt : dtype) (x : scalar) : scalar :=
  if isna x then match dt with
                 | float64 => Float "0.0"
                 | _ => Int 0
                 end
  else x.

(** [_import_budget], line 220:
    [df["account_no"].astype(str).str.replace(".0", "")] on one cell, the
    pattern taken literally (pandas before 2.0 reads it as a regular
    expression, in which the period matches any character). *)
Definition budget_account_no (x : scalar) : scalar :=
  str_replace ".0" "" (Str (str x)).

(** [_import_journal_entry_rad], lines 255-266: the expression
    [col.fillna(0).astype(str).replace(r"\.0$", "", regex=True)] applied to
    [account_no], [business_unit_id] and [company_id], on one cell. *)
Definition journal_entry_identifier (dt : dtype) (x : scalar) : scalar :=
  Str (sub_trailing_dot_zero (str (fillna_zero dt x))).

(** ** The wide-to-long melter *)

(** The category family of [_import_budget_rad] (lines 186-188) and of
    [_import_journal_entry] (lines 289-291). *)
Definition budget_family (col : string) : bool :=
  PyStr.contains "rad" col && negb (PyStr.contains "description" col).

Definition journal_entry_family (col : string) : bool :=
  PyStr.contains "RAD" col && negb (PyStr.contains "Description" col).

(** The row of [df_split[cols]] where [cols] are the family's labels. *)
Definition family_cells (family : string -> bool) (cols : list string)
  (row : list scalar) : list scalar :=
  take_cells (flat_map (positions cols) (List.filter family cols)) row.

(** [applymap(lambda x: str(x) if not pd.isna(x) else np.nan)] *)
Definition stringify (x : scalar) : scalar :=
  if isna x then NaN else Str (str x).

(** ["|".join([str(x) for x in row if not pd.isna(x)])] *)
Definition combined (cells : list scalar) : string :=
  PyStr.join "|" (List.map str (List.filter (fun x => negb (isna x)) cells)).

(** [df_result.replace("", float("NaN"))] *)
Definition blank_to_nan (x : scalar) : scalar :=
  match x with
  | Str EmptyString => NaN
  | _ => x
  end.

(** What one row of index [i] contributes to [df_result]: the combined
    string is split and exploded, the columns [id] (holding [index + 1])
    and [value] are kept, blanks become [NaN] and rows with a [NaN] are
    dropped. *)
Definition melt_row (family : string -> bool) (cols : list string) (i : nat)
  (row : list scalar) : list (list scalar) :=
  let segments :=
    PyStr.split "|" (combined (List.map stringify (family_cells family cols row))) in
  let exploded := List.map (fun v => [Int (Z.of_nat i + 1); Str v]) segments in
  let replaced := List.map (List.map blank_to_nan) exploded in
  List.filter (fun r => negb (existsb isna r)) replaced.

Definition melt_rows (family : string -> bool) (cols : list string) (start : nat)
  (rs : list (list scalar)) : list (list scalar) :=
  flat_map (fun ir => melt_row family cols (fst ir) (snd ir))
    (combine (seq start (length rs)) rs).

(** No label occurs twice. *)
Fixpoint unique_labels (cols : list string) : bool :=
  match cols with
  | [] => true
  | c :: cols' => negb (existsb (String.eqb c) cols') && unique_labels cols'
  end.

(** Lines 185-201 (and 288-307): from the frame with its [id] column to
    [df_result] with its two renamed columns. Two pandas checks stand in
    the way: on a frame without rows [apply] yields a float64 column, on
    which [.str] raises; and [explode] refuses a frame in which a label
    occurs twice (if an earlier statement has not raised on it already). *)
Definition melt (family : string -> bool) (id_label value_label : string)
  (df : DataFrame) : result DataFrame :=
  match rows df with
  | [] => Raise (AttributeError "Can only use .str accessor with string values!")
  | _ =>
      if unique_labels (columns df)
      then Ok {| columns := [id_label; value_label];
                 rows := melt_rows family (columns df) 0 (rows df) |}
      else Raise (ValueError "DataFrame columns must be unique.")
  end.

(** [_import_budget_rad], lines 180-201. *)
Definition budget_rad_frame (raw : DataFrame) : result DataFrame :=
  melt budget_family "budget_id" "rad_id" (sanitize_columns raw).

(** [_import_journal_entry], lines 288-307, on the frame [df] of line 287. *)
Definition journal_entry_rad_frame (df : DataFrame) : result DataFrame :=
  melt journal_entry_family "journal_entry_id" "rad_id" df.

(** ** The store session, the extracts and the log *)

Record insert := { into : string; fields : list string }.

(** [f"INSERT INTO {table} ({columns}) VALUES ({values_template})"] *)
Definition insert_query (q : insert) : string :=
  "INSERT INTO " +:+ into q +:+ " (" +:+ PyStr.join ", " (fields q) +:+ ") VALUES (" +:+
  PyStr.join ", " (List.map (fun _ => "%s") (fields q)) +:+ ")".

Definition introspection : string :=
  "SELECT column_name FROM information_schema.columns WHERE table_name = %s".

Inductive level := INFO | ERROR.

(** What a run does to the outside, in order. [ExecuteMany q rows] is
    [cursor.executemany(insert_query q, rows)]. *)
Inductive event :=
| ReadCsv (path : string)
| ReadSql (sql : string)
| Execute (query : string) (params : list string)
| ExecuteMany (q : insert) (rows : list (list scalar))
| Commit
| Log (lvl : level) (msg : string).

(** The outside a run meets: the extract files ([read_csv] raises or
    yields the frame), the live schema as the introspection query reports
    it, and how the store answers a query or a bulk insert given what was
    done to it before ([Some e]: the insert raises [e]). The session itself
    stays up: opening a cursor, the introspection and the commit succeed. *)
Record World := {
  read_csv : string -> result DataFrame;
  read_sql : list event -> string -> result DataFrame;
  information_schema : string -> gset string;
  executemany : list event -> insert -> list (list scalar) -> option exn
}.

(** A computation sees the events so far and yields the events it adds and
    either a value or the exception it raises. *)
Definition M (A : Type) : Type := list event -> list event * result A.

Definition ret {A} (a : A) : M A := fun _ => ([], Ok a).

Definition raise {A} (e : exn) : M A := fun _ => ([], Raise e).

Definition lift {A} (r : result A) : M A := fun _ => ([], r).

Definition emit (e : event) : M unit := fun _ => ([e], Ok tt).

Definition bind {A B} (m : M A) (f : A -> M B) : M B :=
  fun h =>
    match m h with
    | (ev, Ok a) => let '(ev', r) := f a (h ++ ev) in (ev ++ ev', r)
    | (ev, Raise e) => (ev, Raise e)
    end.

(** [try: m  except Exception as e: handler e] *)
Definition try_except {A} (m : M A) (handler : exn -> M A) : M A :=
  fun h =>
    match m h with
    | (ev, Ok a) => (ev, Ok a)
    | (ev, Raise e) => let '(ev', r) := handler e (h ++ ev) in (ev ++ ev', r)
    end.

Declare Scope py_scope.
Delimit Scope py_scope with py.
Notation "x <- m ;; k" := (bind m (fun x => k))
  (at level 100, m at next level, right associativity) : py_scope.
Notation "m ;; k" := (bind m (fun _ => k))
  (at level 100, right associativity) : py_scope.
Open Scope py_scope.

Definition log_info (msg : string) : M unit := emit (Log INFO msg).

(** [logging.exception] logs at level ERROR. *)
Definition log_exception (msg : string) : M unit := emit (Log ERROR msg).

(** A sequence of statements: the first one that raises ends it. *)
Fixpoint run_each (stmts : list (M unit)) : M unit :=
  match stmts with
  | [] => ret tt
  | s :: stmts' => s ;; run_each stmts'
  end.

Definition events {A} (x : list event * result A) : list event := fst x.
Definition outcome {A} (x : list event * result A) : result A := snd x.

(** ** Util.import_func: the schema-aware bulk loader *)

(** [repr] of the set of schema columns, in the order [elements] lists it
    (Python leaves the order open). *)
Definition repr_set (s : gset string) : string :=
  match elements s with
  | [] => "set()"
  | l => "{" +:+ PyStr.join ", " (List.map (fun c => "'" +:+ c +:+ "'") l) +:+ "}"
  end.

Definition no_matching_columns (table : string) (table_columns : gset string) : exn :=
  ValueError ("No matching columns to import into table " +:+ table +:+
              ". Available columns: " +:+ repr_set table_columns).

Definition row_length_mismatch : exn :=
  ValueError "Row length does not match number of columns in query".

(** The labels line 406 keeps: those of [df] that the schema has. *)
Definition projection (df : DataFrame) (table_columns : gset string) : list string :=
  List.filter (fun col => bool_decide (col ∈ table_columns)) (columns df).

Definition import_func (w : World) (df : DataFrame) (table : string) : M unit :=
  try_except
    (emit (Execute introspection [table]) ;;
     let table_columns := information_schema w table in
     df <- lift (getitem df (projection df table_columns)) ;;
     let df := map_cells nan_to_none df in
     let df := map_cells blank_to_none df in
     if empty df then raise (no_matching_columns table table_columns)
     else
       let q := {| into := table; fields := columns df |} in
       let rows := rows df in
       row0 <- lift (match rows with
                     | r :: _ => Ok r
                     | [] => Raise (IndexError "list index out of range")
                     end) ;;
       if negb (length row0 =? length (columns df))%nat then raise row_length_mismatch
       else
         (fun h => match executemany w h q rows with
                   | Some e => ([ExecuteMany q rows], Raise e)
                   | None => ([ExecuteMany q rows], Ok tt)
                   end) ;;
         emit Commit ;;
         log_info ("Data imported into " +:+ table +:+ " successfully."))
    (fun error =>
       log_exception ("Error importing data into " +:+ table +:+ ": " +:+ exn_message error) ;;
       raise error).

(** [Util.execute_query] *)
Definition execute_query (w : World) (sql : string) : M DataFrame :=
  try_except
    (df <- (fun h => ([ReadSql sql], read_sql w h sql)) ;;
     log_info ("Data from query:" +:+ newline +:+ sql +:+ newline +:+ " successful.") ;;
     ret df)
    (fun error =>
       log_exception ("Error from query:" +:+ newline +:+ sql +:+ newline +:+ " " +:+ exn_message error) ;;
       raise error).

(** ** Migration: the entity importers and import_all *)

(** The pandas reshaping of the importers that is taken as given: each
    field stands for the lines named, and may raise. [columns_error] is
    the error of the statement [df.columns = Util.sanitize_columns(df)] at
    the line given, on the extract given (see [assign_frame_to_columns]). *)
Record Pipelines := {
  account_frame : DataFrame -> DataFrame -> result DataFrame;          (* lines 129-144 *)
  rad_account_frame : DataFrame -> result DataFrame;                   (* lines 157-159 *)
  account_rad_type_frame : DataFrame -> DataFrame -> result DataFrame; (* lines 163-167 *)
  columns_error : nat -> DataFrame -> exn;                  (* lines 215, 236, 283, 321, 353 *)
  budget_frame : DataFrame -> result DataFrame;                        (* lines 216-221 *)
  journal_entry_frame : DataFrame -> result DataFrame;                 (* lines 237-267 *)
  journal_entry_rad_head : DataFrame -> result DataFrame;              (* lines 285-287 *)
  rad_frame : DataFrame -> result DataFrame;                           (* line 322 *)
  rad_type_frame : DataFrame -> result DataFrame;                      (* lines 335-338 *)
  business_unit_frame : DataFrame -> result DataFrame;                 (* lines 354-367 *)
  budget_entry_admin_view_frame : DataFrame -> result DataFrame        (* lines 380-383 *)
}.

(** [df.columns = Util.sanitize_columns(df)]: [sanitize_columns] returns
    the frame (line 450), so the value assigned to the column axis is the
    frame itself, not its labels. pandas builds an index from the cells of
    the frame and refuses it as an axis: it is two-dimensional, or it has
    one entry for each row and not for each column. In the one case left (a
    frame with a string in it and as many rows as columns) the rows become
    the labels, and the lookup by name that follows in each of the five
    importers raises. Either way the importer raises here, whatever the
    extract holds, and the statements after it are never reached. The
    sibling importers write [df = Util.sanitize_columns(df)]. *)
Definition assign_frame_to_columns (p : Pipelines) (line : nat) (df : DataFrame)
  : M DataFrame :=
  raise (columns_error p line df).

(** The opening of every importer: read the extract and log it, or log the
    error; [None] stands for the [return] of the [except] branch. *)
Definition read_step (w : World) (path info error : string) : M (option DataFrame) :=
  try_except
    (raw <- (fun _ => ([ReadCsv path], read_csv w path)) ;;
     log_info info ;;
     ret (Some raw))
    (fun e => log_exception (error +:+ exn_message e) ;; ret None).

(** An importer: its opening, and [k] for the rest when the extract was
    read. *)
Definition read_extract (w : World) (path info error : string)
  (k : DataFrame -> M unit) : M unit :=
  r <- read_step w path info error ;;
  match r with
  | Some raw => k raw
  | None => ret tt
  end.

Section Migration.

Variable w : World.
Variable p : Pipelines.

Definition _import_account : M unit :=
  read_extract w "./source/Account.csv" "Account data read from CSV." "Error Account CSV: "
    (fun account_raw =>
  read_extract w "./source/AccountOwnership.csv" "Account data read from CSV." "Error Account CSV: "
    (fun account_ownership_raw =>
  merge <- lift (account_frame p account_raw account_ownership_raw) ;;
  import_func w merge "account")).

Definition _import_account_rad_type : M unit :=
  read_extract w "./source/Rad_Account.csv" "RAD Account data read from CSV." "Error RAD Account CSV: "
    (fun raw =>
  rad_account <- lift (rad_account_frame p raw) ;;
  accounts <- execute_query w "SELECT id, account_no FROM account;" ;;
  merge <- lift (account_rad_type_frame p rad_account accounts) ;;
  import_func w merge "account_rad_type").

Definition _import_budget_rad : M unit :=
  read_extract w "./source/budget.csv" "Budget RAD data read from CSV." "Error reading Budget RAD CSV: "
    (fun raw =>
  df_result <- lift (budget_rad_frame raw) ;;
  import_func w df_result "budget_rad").

Definition _import_budget : M unit :=
  read_extract w "./source/Budget.csv" "Budget data read from CSV." "Error reading Budget CSV: "
    (fun raw =>
  df <- assign_frame_to_columns p 215 raw ;;
  df <- lift (budget_frame p df) ;;
  import_func w df "budget").

Definition _import_journal_entry_rad : M unit :=
  read_extract w "./source/JournalEntry.csv" "Journal Entry read from CSV." "Error reading Journal Entry CSV: "
    (fun raw =>
  df <- assign_frame_to_columns p 236 raw ;;
  je <- lift (journal_entry_frame p df) ;;
  import_func w je "journal_entry").

Definition _import_journal_entry : M unit :=
  read_extract w "./source/JournalEntry.csv" "Journal Entry read from CSV." "Error reading Journal Entry CSV: "
    (fun raw =>
  df <- assign_frame_to_columns p 283 raw ;;
  df <- lift (journal_entry_rad_head p df) ;;
  df_result <- lift (journal_entry_rad_frame df) ;;
  import_func w df_result "journal_entry_rad").

Definition _import_rad : M unit :=
  read_extract w "./source/Rad.csv" "RAD data read from CSV." "Error reading RAD CSV: "
    (fun raw =>
  rad <- assign_frame_to_columns p 321 raw ;;
  rad <- lift (rad_frame p rad) ;;
  import_func w rad "rad").

Definition _import_rad_type : M unit :=
  read_extract w "./source/Rad.csv" "RAD data read from CSV." "Error reading RAD CSV: "
    (fun raw =>
  rad <- lift (rad_type_frame p raw) ;;
  import_func w rad "rad_type").

Definition _import_business_unit : M unit :=
  read_extract w "./source/BusinessUnit.csv" "Business Unit data read from CSV." "Error reading Business Unit CSV: "
    (fun raw =>
  df <- assign_frame_to_columns p 353 raw ;;
  df <- lift (business_unit_frame p df) ;;
  import_func w df "business_unit").

Definition _import_budget_entry_admin_view : M unit :=
  read_extract w "./source/BudgetEntryAdminView.csv" "Budget Entry Admin View data read from CSV."
    "Error reading Budget Entry Admin View CSV: "
    (fun raw =>
  df <- lift (budget_entry_admin_view_frame p raw) ;;
  import_func w df "budget_entry_admin_view").

(** The calls of the [try] block of [import_all], in the order written. *)
Definition importers : list (M unit) :=
  [ _import_account;
    _import_rad_type;
    _import_rad;
    _import_business_unit;
    _import_account_rad_type;
    _import_budget;
    _import_budget_rad;
    _import_journal_entry;
    _import_journal_entry_rad;
    _import_budget_entry_admin_view ].

Definition import_all_handler (e : exn) : M unit :=
  log_exception ("Error during import_all: " +:+ exn_message e).

Definition import_all : M unit :=
  try_except
    (run_each importers ;;
     log_info "All data imported successfully.")
    import_all_handler.

End Migration.

(** ** Observations on a trace *)

(** The tables whose load was begun: [import_func] opens with the
    introspection of its target table. *)
Fixpoint load_attempts (tr : list event) : list string :=
  match tr with
  | [] => []
  | Execute _ [table] :: tr' => table :: load_attempts tr'
  | _ :: tr' => load_attempts tr'
  end.

Definition is_insert (e : event) : bool :=
  match e with
  | ExecuteMany _ _ => true
  | _ => false
  end.

Definition is_commit (e : event) : bool :=
  match e with
  | Commit => true
  | _ => false
  end.

Definition is_read_of (path : string) (e : event) : bool :=
  match e with
  | ReadCsv path' => String.eqb path path'
  | _ => false
  end.

(** A computation begins no load; begins at most the load of [table]. *)
Definition quiet {A} (m : M A) : Prop :=
  forall h, load_attempts (events (m h)) = [].

Definition loads_at_most {A} (table : string) (m : M A) : Prop :=
  forall h, load_attempts (events (m h)) = [] \/ load_attempts (events (m h)) = [table].

(** A computation begins loads of the tables [ts] at most, in that
    order. *)
Definition loads_within {A} (ts : list string) (m : M A) : Prop :=
  forall h, sublist (load_attempts (events (m h))) ts.

(** The table named in the call of [import_func] of each importer, in the
    order of [importers]. *)
Definition load_order : list string :=
  [ "account"; "rad_type"; "rad"; "business_unit"; "account_rad_type";
    "budget"; "budget_rad"; "journal_entry_rad"; "journal_entry";
    "budget_entry_admin_view" ].

(** The tables of [load_order] whose importer can reach its call of
    [import_func]: the other five importers assign a frame to
    [df.columns] first. *)
Definition reachable_tables : list string :=
  [ "account"; "rad_type"; "account_rad_type"; "budget_rad"; "budget_entry_admin_view" ].

(** The importers [import_all] calls before [_import_budget], and before
    the two journal-entry ones. *)
Definition importers_before_budget (w : World) (p : Pipelines) : list (M unit) :=
  [ _import_account w p;
    _import_rad_type w p;
    _import_rad w p;
    _import_business_unit w p;
    _import_account_rad_type w p ].

Definition importers_before_journal (w : World) (p : Pipelines) : list (M unit) :=
  importers_before_budget w p ++ [ _import_budget w p; _import_budget_rad w ].

(** The trace has a bulk insert into [table]. *)
Definition inserts_into (table : string) (tr : list event) : bool :=
  existsb (fun e => match e with
                    | ExecuteMany q _ => String.eqb (into q) table
                    | _ => false
                    end) tr.

(** ** Vocabulary of the statements *)

(** [a] does not occur in [s]. *)
Definition char_free (a : ascii) (s : string) : bool :=
  PyStr.all_chars (fun c => negb (Ascii.eqb c a)) s.

Definition pipe_free (s : string) : bool := char_free "|" s.

(** The cells that are not missing, and the strings of those that are
    neither missing nor blank. *)
Definition non_null (cells : list scalar) : list scalar :=
  List.filter (fun x => negb (isna x)) cells.

Definition category_values (cells : list scalar) : list string :=
  List.filter (fun v => negb (String.eqb v "")) (List.map str (non_null cells)).

(** The rows of a melted frame that carry the parent id [id]. *)
Definition rows_of (id : Z) (rs : list (list scalar)) : list (list scalar) :=
  List.filter (fun r => match r with
                        | Int z :: _ => Z.eqb z id
                        | _ => false
                        end) rs.

(** The frame [import_func] holds at line 410: projected on the schema,
    with missing and blank cells turned into [None]. *)
Definition loaded_frame (w : World) (df : DataFrame) (table : string) : DataFrame :=
  map_cells blank_to_none
    (map_cells nan_to_none (select df (projection df (information_schema w table)))).

(** ** The pipeline of _import_rad_type, call by call *)

Definition scalar_eqb (x y : scalar) : bool :=
  match x, y with
  | NaN, NaN | PyNone, PyNone => true
  | Str a, Str b | Float a, Float b => String.eqb a b
  | Int a, Int b => Z.eqb a b
  | _, _ => false
  end.

Fixpoint row_eqb (r1 r2 : list scalar) : bool :=
  match r1, r2 with
  | [], [] => true
  | x :: r1', y :: r2' => scalar_eqb x y && row_eqb r1' r2'
  | _, _ => false
  end.

(** [df.drop_duplicates()]: the first of equal rows stays. *)
Fixpoint drop_duplicate_rows (seen rs : list (list scalar)) : list (list scalar) :=
  match rs with
  | [] => []
  | r :: rs' =>
      if existsb (row_eqb r) seen then drop_duplicate_rows seen rs'
      else r :: drop_duplicate_rows (r :: seen) rs'
  end.

Definition drop_duplicates (df : DataFrame) : DataFrame :=
  {| columns := columns df; rows := drop_duplicate_rows [] (rows df) |}.

(** Lines 335-338: [sanitize_columns], [rad[["rad_type_id", "rad_type"]]],
    [drop_duplicates()]. *)
Definition rad_type_lines (raw : DataFrame) : result DataFrame :=
  match getitem (sanitize_columns raw) ["rad_type_id"; "rad_type"] with
  | Ok rad => Ok (drop_duplicates rad)
  | Raise e => Raise e
  end.

Definition not_reached {A} : A -> result DataFrame :=
  fun _ => Raise (OtherError "NotImplementedError" "pipeline outside this run").

(** pandas' error for an axis of the wrong length: what the assignment of
    a frame to [df.columns] raises when the frame holds a string and has
    not as many rows as columns. At line 283 the frame has its [id] column
    already. *)
Definition length_mismatch (line : nat) (df : DataFrame) : exn :=
  let expected := (length (columns df) + if (line =? 283)%nat then 1 else 0)%nat in
  ValueError ("Length mismatch: Expected axis has " +:+ str (Int (Z.of_nat expected)) +:+
              " elements, new values have " +:+ str (Int (Z.of_nat (length (rows df)))) +:+
              " elements").

(** Pipelines in which [_import_rad_type]'s is the one of the source; the
    others raise, for runs that do not reach them. *)
Definition rad_type_pipelines : Pipelines :=
  {| account_frame := fun _ => not_reached;
     rad_account_frame := not_reached;
     account_rad_type_frame := fun _ => not_reached;
     columns_error := length_mismatch;
     budget_frame := not_reached;
     journal_entry_frame := not_reached;
     journal_entry_rad_head := not_reached;
     rad_frame := not_reached;
     rad_type_frame := rad_type_lines;
     business_unit_frame := not_reached;
     budget_entry_admin_view_frame := not_reached |}.

(** ** Sample extracts and stores *)

Definition no_such_file : exn := OtherError "FileNotFoundError" "No such file or directory".

Definition no_such_relation : exn := OtherError "DatabaseError" "relation does not exist".

(** A store whose table [person] has the columns [id] and [name] and takes
    every insert; no extract can be read. *)
Definition person_store : World :=
  {| read_csv := fun _ => Raise no_such_file;
     read_sql := fun _ _ => Raise no_such_relation;
     information_schema := fun table =>
       if String.eqb table "person" then {[ "id"; "name" ]} else ∅;
     executemany := fun _ _ _ => None |}.

Definition rad_extract : DataFrame :=
  {| columns := ["RAD Type Id"; "RAD Type"; "RAD Id"; "RAD"];
     rows := [ [Int 1; Str "Fund"; Str "F1"; Str "General"];
               [Int 1; Str "Fund"; Str "F2"; Str "Capital"] ] |}.

Definition business_unit_extract : DataFrame :=
  {| columns := ["BusinessUnitid"; "BusinessUnit"]; rows := [[Int 10; Str "Clinic"]] |}.

(** A RAD extract in which two labels differ only in case, and a world
    in which it is the one extract, with a store that takes every
    insert. *)
Definition colliding_rad : DataFrame :=
  {| columns := ["RAD Type Id"; "RAD Type"; "RAD Id"; "RAD"; "rad"];
     rows := [[Int 1; Str "Fund"; Str "F1"; Str "General"; Str "g"]] |}.

Definition rad_only : World :=
  {| read_csv := fun path =>
       if String.eqb path "./source/Rad.csv" then Ok colliding_rad
       else Raise no_such_file;
     read_sql := fun _ _ => Raise no_such_relation;
     information_schema := fun table =>
       if String.eqb table "rad_type" then {[ "rad_type_id"; "rad_type" ]} else ∅;
     executemany := fun _ _ _ => None |}.

(** A world with no [Account.csv], readable [Rad.csv] and
    [BusinessUnit.csv], and a store that turns down the insert into
    [rad_type]. *)
Definition rejecting_store : World :=
  {| read_csv := fun path =>
       if String.eqb path "./source/Rad.csv" then Ok rad_extract
       else if String.eqb path "./source/BusinessUnit.csv" then Ok business_unit_extract
       else Raise no_such_file;
     read_sql := fun _ _ => Raise no_such_relation;
     information_schema := fun table =>
       if String.eqb table "rad_type" then {[ "rad_type_id"; "rad_type" ]}
       else if String.eqb table "rad" then {[ "rad_type_id"; "rad_id"; "rad" ]}
       else {[ "id" ]};
     executemany := fun _ q _ =>
       if String.eqb (into q) "rad_type"
       then Some (OtherError "StringDataRightTruncation"
                    "value too long for type character varying(3)")
       else None |}.

(** A journal extract in which the one entry has two category values,
    and a world in which it is the only extract. *)
Definition journal_extract : DataFrame :=
  {| columns := ["Entry Id"; "Account No"; "Amount"; "RAD 1"; "RAD 2"; "RAD Description"];
     rows := [[Int 5; Float "1001.0"; Str "1,234.50"; Str "F10"; Str "G20"; Str "x"]] |}.

Definition journal_only : World :=
  {| read_csv := fun path =>
       if String.eqb path "./source/JournalEntry.csv" then Ok journal_extract
       else Raise no_such_file;
     read_sql := fun _ _ => Raise no_such_relation;
     information_schema := fun table =>
       if String.eqb table "journal_entry_rad" then {[ "journal_entry_id"; "rad_id" ]}
       else if String.eqb table "journal_entry" then {[ "entry_id"; "account_no"; "amount" ]}
       else ∅;
     executemany := fun _ _ _ => None |}.

(** A budget extract with an identifier that was read as a float, an
    amount with a thousands separator and a blank amount, and a world in
    which [Budget.csv] is the only extract. *)
Definition budget_extract : DataFrame :=
  {| columns := ["Budget Id"; "Business Unit Id"; "Account No"; "Amount"];
     rows := [ [Int 7; Int 10; Float "123.0"; Str "1,234.50"];
               [Int 8; Int 10; Float "124.0"; NaN] ] |}.

Definition budget_only : World :=
  {| read_csv := fun path =>
       if String.eqb path "./source/Budget.csv" then Ok budget_extract
       else Raise no_such_file;
     read_sql := fun _ _ => Raise no_such_relation;
     information_schema := fun table =>
       if String.eqb table "budget"
       then {[ "id"; "budget_id"; "business_unit_id"; "account_no"; "amount" ]}
       else ∅;
     executemany := fun _ _ _ => None |}.

(** A world in which [budget.csv], the extract of [_import_budget_rad], is
    the only one ([Budget.csv], with a capital, is another path), and the
    store takes every insert. *)
Definition budget_rad_extract : DataFrame :=
  {| columns := ["Budget Id"; "RAD 1"; "RAD 2"; "RAD Description"];
     rows := [[Int 7; Str "F10"; Str "G20"; Str "x"]] |}.

Definition budget_rad_only : World :=
  {| read_csv := fun path =>
       if String.eqb path "./source/budget.csv" then Ok budget_rad_extract
       else Raise no_such_file;
     read_sql := fun _ _ => Raise no_such_relation;
     information_schema := fun table =>
       if String.eqb table "budget_rad" then {[ "budget_id"; "rad_id" ]}
       else if String.eqb table "budget" then {[ "id"; "budget_id"; "account_no"; "amount" ]}
       else ∅;
     executemany := fun _ _ _ => None |}.

(** A world with both budget extracts, [Budget.csv] and [budget.csv], and
    no other. *)
Definition budget_pair : World :=
  {| read_csv := fun path =>
       if String.eqb path "./source/Budget.csv" then Ok budget_extract
       else if String.eqb path "./source/budget.csv" then Ok budget_rad_extract
       else Raise no_such_file;
     read_sql := fun _ _ => Raise no_such_relation;
     information_schema := fun table =>
       if String.eqb table "budget_rad" then {[ "budget_id"; "rad_id" ]}
       else if String.eqb table "budget"
            then {[ "id"; "budget_id"; "business_unit_id"; "account_no"; "amount" ]}
            else ∅;
     executemany := fun _ _ _ => None |}.

(** A world with the RAD and the business-unit extract, and a store that
    takes every insert. *)
Definition rad_and_units : World :=
  {| read_csv := fun path =>
       if String.eqb path "./source/Rad.csv" then Ok rad_extract
       else if String.eqb path "./source/BusinessUnit.csv" then Ok business_unit_extract
       else Raise no_such_file;
     read_sql := fun _ _ => Raise no_such_relation;
     information_schema := fun table =>
       if String.eqb table "rad_type" then {[ "rad_type_id"; "rad_type" ]}
       else if String.eqb table "rad" then {[ "rad_type_id"; "rad_id"; "rad" ]}
       else {[ "id" ]};
     executemany := fun _ _ _ => None |}.

(** ** DBManager.connect, Migration.delete_all_tables, Migration.apply_schema
    and the script *)

(** What the script meets before the import: whether [psycopg2.connect]
    raises, the public tables the catalogue lists (or the error of that
    query), whether a [DROP] raises, the text of a schema file (or the
    error of opening it) and whether running that text raises. *)
Record Server := {
  psycopg2_connect : option exn;
  public_tables : list event -> result (list string);
  drop_error : list event -> string -> option exn;
  schema_text : string -> result string;
  schema_error : list event -> string -> option exn
}.

Definition indent : string := "                    ".

(** The query of lines 64-68, with its line breaks. *)
Definition select_tables : string :=
  newline +:+ indent +:+ "SELECT tablename" +:+
  newline +:+ indent +:+ "FROM pg_tables" +:+
  newline +:+ indent +:+ "WHERE schemaname = 'public';" +:+
  newline +:+ indent.

Definition double_quote : string := String (ascii_of_nat 34) EmptyString.

(** [sql.Identifier(name)] as it is rendered: in double quotes, with every
    double quote of the name doubled. *)
Definition quote_ident (name : string) : string :=
  double_quote +:+ PyStr.replace double_quote (double_quote +:+ double_quote) name +:+
  double_quote.

(** [sql.SQL("DROP TABLE IF EXISTS {} CASCADE").format(sql.Identifier(name))] *)
Definition drop_statement (name : string) : string :=
  "DROP TABLE IF EXISTS " +:+ quote_ident name +:+ " CASCADE".

(** The [for] loop of lines 73-79. *)
Fixpoint drop_each (s : Server) (tables : list string) : M unit :=
  match tables with
  | [] => ret tt
  | t :: tables' =>
      (fun h => ([Execute (drop_statement t) []],
                 match drop_error s h t with
                 | Some e => Raise e
                 | None => Ok tt
                 end)) ;;
      log_info ("Table '" +:+ t +:+ "' dropped.") ;;
      drop_each s tables'
  end.

(** [logging.error(..., exc_info=True)] *)
Definition log_error (msg : string) : M unit := emit (Log ERROR msg).

Definition delete_all_tables (s : Server) : M unit :=
  try_except
    (tables <- (fun h => ([Execute select_tables []], public_tables s h)) ;;
     drop_each s tables ;;
     emit Commit ;;
     log_info "All tables deleted successfully.")
    (fun e => log_error ("Failed to delete tables: " +:+ exn_message e) ;; raise e).

(** [apply_schema]: the file is opened inside the [try], after the cursor;
    reading it leaves no event. *)
Definition apply_schema (s : Server) (schema_file : string) : M unit :=
  try_except
    (text <- lift (schema_text s schema_file) ;;
     (fun h => ([Execute text []],
                match schema_error s h text with
                | Some e => Raise e
                | None => Ok tt
                end)) ;;
     emit Commit ;;
     log_info "Schema applied successfully.")
    (fun e => log_error ("Failed to apply schema: " +:+ exn_message e) ;; raise e).

(** What the script does, in order: the connection attempt, a warning of
    the log (a level the session's events do not have), or an event of the
    session and the log. *)
Inductive step :=
| PsycopgConnect (dbname user password host : string) (port : Z)
| LogWarning (msg : string)
| Did (e : event).

Definition is_operational_error (e : exn) : bool :=
  match e with
  | OtherError class _ => String.eqb class "OperationalError"
  | _ => false
  end.

(** [DBManager().connect()] with the defaults of [__init__]: only an
    [OperationalError] is caught, logged as a warning and raised again. *)
Definition connect (s : Server) : list step * result unit :=
  let attempt := PsycopgConnect "central_health" "postgres" "1234" "localhost" 5432 in
  match psycopg2_connect s with
  | None => ([attempt; Did (Log INFO "Connected to the database.")], Ok tt)
  | Some e =>
      if is_operational_error e
      then ([attempt; LogWarning ("Database connection failed: " +:+ exn_message e)], Raise e)
      else ([attempt], Raise e)
  end.

(** The three calls of the script on the session. *)
Definition migrate (s : Server) (w : World) (p : Pipelines) : M unit :=
  delete_all_tables s ;;
  apply_schema s "schema.sql" ;;
  import_all w p.

(** The [if __name__ == "__main__"] block: a connection object is true, so
    the [if conn] is taken whenever [connect] returns; the [except] raises
    what it caught. *)
Definition main (s : Server) (w : World) (p : Pipelines) : list step * result unit :=
  match connect s with
  | (ev, Raise e) => (ev, Raise e)
  | (ev, Ok _) =>
      let '(ev', r) := migrate s w p [Log INFO "Connected to the database."] in
      (ev ++ List.map Did ev', r)
  end.

(** The statements the session was sent, and the commits. *)
Definition dropped (tables : list string) : list event :=
  flat_map (fun t => [Execute (drop_statement t) []; Log INFO ("Table '" +:+ t +:+ "' dropped.")])
    tables.


(** Every [Commit] of the trace [tr], which a run added to the history
    [h], comes directly after a bulk insert, and the store took that
    insert when it was sent. *)
Definition commits_follow_accepted_inserts (w : World) (h tr : list event) : Prop :=
  forall pre post,
    tr = pre ++ Commit :: post ->
    exists pre' q rs,
      pre = pre' ++ [ExecuteMany q rs] /\ executemany w (h ++ pre') q rs = None.

(** A server that answers everything, with two public tables, and one on
    which the second [DROP] fails. *)
Definition calm_server : Server :=
  {| psycopg2_connect := None;
     public_tables := fun _ => Ok ["account"; "rad"];
     drop_error := fun _ _ => None;
     schema_text := fun _ => Ok "CREATE TABLE account (id integer);";
     schema_error := fun _ _ => None |}.

Definition locked_server : Server :=
  {| psycopg2_connect := None;
     public_tables := fun _ => Ok ["account"; "rad"; "budget"];
     drop_error := fun _ t =>
       if String.eqb t "rad" then Some (OtherError "LockNotAvailable" "could not obtain lock")
       else None;
     schema_text := fun _ => Raise no_such_file;
     schema_error := fun _ _ => None |}.

Definition unreachable_server : Server :=
  {| psycopg2_connect := Some (OtherError "OperationalError" "connection refused");
     public_tables := fun _ => Ok [];
     drop_error := fun _ _ => None;
     schema_text := fun _ => Raise no_such_file;
     schema_error := fun _ _ => None |}.

(** Every run of [m] adds a trace that satisfies [P]; and the same for a
    property of the trace together with the history it was added to. *)
Definition keeps {A} (P : list event -> Prop) (m : M A) : Prop :=
  forall h, P (events (m h)).

Definition keeps_from {A} (P : list event -> list event -> Prop) (m : M A) : Prop :=
  forall h, P h (events (m h)).



Definition is_session_step (st : step) : bool :=
  match st with
  | Did (Log _ _) => false
  | Did _ => true
  | _ => false
  end.

(** The parent ids of melted rows, in order. *)
Definition parent_ids (rs : list (list scalar)) : list Z :=
  List.map (fun r => match r with
                     | Int z :: _ => z
                     | _ => 0%Z
                     end) rs.

Definition is_introspection (e : event) : bool :=
  match e with
  | Execute _ _ => true
  | _ => false
  end.

(** A store without the table [account], and an extract of one line for
    every path. *)
Definition accounts_missing : World :=
  {| read_csv := fun _ => Ok {| columns := ["Account No"]; rows := [[Int 1]] |};
     read_sql := fun _ _ => Raise no_such_relation;
     information_schema := fun _ => ∅;
     executemany := fun _ _ _ => None |}.

(** Pipelines for a run that ends in [_import_account_rad_type]. *)
Definition rad_account_pipelines : Pipelines :=
  {| account_frame := fun _ => not_reached;
     rad_account_frame := fun raw => Ok (sanitize_columns raw);
     account_rad_type_frame := fun _ => not_reached;
     columns_error := length_mismatch;
     budget_frame := not_reached;
     journal_entry_frame := not_reached;
     journal_entry_rad_head := not_reached;
     rad_frame := not_reached;
     rad_type_frame := not_reached;
     business_unit_frame := not_reached;
     budget_entry_admin_view_frame := not_reached |}.

(** * Properties *)

(** ** Strings *)

Lemma all_chars_app p a b :
  PyStr.all_chars p (a +:+ b) = PyStr.all_chars p a && PyStr.all_chars p b.
Proof.
  induction a as [|c a IH]; simpl; [reflexivity|].
  rewrite IH. now rewrite andb_assoc.
Qed.

Lemma all_chars_impl (p q : ascii -> bool) s :
  (forall c, p c = true -> q c = true) ->
  PyStr.all_chars p s = true -> PyStr.all_chars q s = true.
Proof.
  intros Hpq. induction s as [|c s IH]; simpl; [reflexivity|].
  intros [Hc Hs]%andb_true_iff. rewrite (Hpq _ Hc). now apply IH.
Qed.

Lemma prefix_cons a s1 b s2 :
  String.prefix (String a s1) (String b s2) =
  if ascii_dec a b then String.prefix s1 s2 else false.
Proof. reflexivity. Qed.

(** Replacing a one-character pattern goes character by character. *)
Lemma replace_char_cons a new c s :
  PyStr.replace (String a EmptyString) new (String c s) =
  if Ascii.eqb c a then new +:+ PyStr.replace (String a EmptyString) new s
  else String c (PyStr.replace (String a EmptyString) new s).
Proof.
  unfold PyStr.replace. simpl.
  destruct (ascii_dec a c) as [->|Hne].
  - rewrite Ascii.eqb_refl. now destruct s.
  - destruct (Ascii.eqb_spec c a) as [->|_]; [congruence|reflexivity].
Qed.

Lemma replace_char_absent a new s :
  PyStr.all_chars (fun c => negb (Ascii.eqb c a)) s = true ->
  PyStr.replace (String a EmptyString) new s = s.
Proof.
  induction s as [|c s IH]; [reflexivity|].
  simpl. intros [Hc Hs]%andb_true_iff. rewrite replace_char_cons.
  apply negb_true_iff in Hc. rewrite Hc. now rewrite IH.
Qed.

Lemma all_chars_replace_char (p q : ascii -> bool) a new s :
  PyStr.all_chars p new = true ->
  (forall c, Ascii.eqb c a = false -> q c = true -> p c = true) ->
  PyStr.all_chars q s = true ->
  PyStr.all_chars p (PyStr.replace (String a EmptyString) new s) = true.
Proof.
  intros Hnew Hpq. induction s as [|c s IH]; [reflexivity|].
  simpl. intros [Hc Hs]%andb_true_iff. rewrite replace_char_cons.
  destruct (Ascii.eqb c a) eqn:E.
  - rewrite all_chars_app, Hnew. now apply IH.
  - simpl. rewrite (Hpq c E Hc). now apply IH.
Qed.

Lemma lower_fixed s :
  PyStr.all_chars (fun c => negb (PyStr.is_upper c)) s = true -> PyStr.lower s = s.
Proof.
  induction s as [|c s IH]; [reflexivity|].
  simpl. intros [Hc Hs]%andb_true_iff. rewrite IH by assumption.
  unfold PyStr.lower_char. apply negb_true_iff in Hc. now rewrite Hc.
Qed.

Lemma all_chars_lower (p q : ascii -> bool) s :
  (forall c, p c = true -> q (PyStr.lower_char c) = true) ->
  PyStr.all_chars p s = true -> PyStr.all_chars q (PyStr.lower s) = true.
Proof.
  intros Hpq. induction s as [|c s IH]; [reflexivity|].
  simpl. intros [Hc Hs]%andb_true_iff. rewrite (Hpq _ Hc). now apply IH.
Qed.

Ltac each_ascii c := destruct c as [[] [] [] [] [] [] [] []].

Lemma lower_char_not_upper c :
  negb (Ascii.eqb c " ") = true ->
  negb (PyStr.is_upper (PyStr.lower_char c)) && negb (Ascii.eqb (PyStr.lower_char c) " ") = true.
Proof. each_ascii c; intros H; vm_compute in H |- *; congruence. Qed.

(** ** Util.sanitize_columns *)

Lemma sanitize_name_canonical c : canonical (sanitize_name c) = true.
Proof.
  unfold canonical, sanitize_name.
  apply all_chars_replace_char with
    (q := fun c => negb (PyStr.is_upper c) && negb (Ascii.eqb c " ") && negb (Ascii.eqb c "/"));
    [reflexivity| |].
  { intros x Hx Hq. unfold canonical_char. now rewrite Hq, Hx. }
  apply all_chars_replace_char with
    (q := fun c => negb (PyStr.is_upper c) && negb (Ascii.eqb c " ")); [reflexivity| |].
  { intros x Hx Hq. now rewrite Hq, Hx. }
  apply all_chars_lower with (p := fun c => negb (Ascii.eqb c " ")).
  { apply lower_char_not_upper. }
  apply all_chars_replace_char with (q := fun _ => true); [reflexivity| |].
  { intros x Hx _. now rewrite Hx. }
  induction c; simpl; auto.
Qed.

Lemma sanitize_name_fixed c : canonical c = true -> sanitize_name c = c.
Proof.
  intros H. unfold sanitize_name.
  rewrite (replace_char_absent " ").
  2:{ revert H. apply all_chars_impl. intros x. unfold canonical_char.
      now intros [[[_ ?]%andb_true_iff _]%andb_true_iff _]%andb_true_iff. }
  rewrite lower_fixed.
  2:{ revert H. apply all_chars_impl. intros x. unfold canonical_char.
      now intros [[[? _]%andb_true_iff _]%andb_true_iff _]%andb_true_iff. }
  rewrite (replace_char_absent "/").
  2:{ revert H. apply all_chars_impl. intros x. unfold canonical_char.
      now intros [[_ ?]%andb_true_iff _]%andb_true_iff. }
  apply replace_char_absent.
  revert H. apply all_chars_impl. intros x. unfold canonical_char.
  now intros [_ ?]%andb_true_iff.
Qed.

Lemma sanitize_name_idempotent c : sanitize_name (sanitize_name c) = sanitize_name c.
Proof. apply sanitize_name_fixed, sanitize_name_canonical. Qed.

Lemma sanitize_columns_labels_are_canonical_aux df :
  forallb canonical (columns (sanitize_columns df)) = true.
Proof.
  simpl. induction (columns df) as [|c cols IH]; [reflexivity|].
  simpl. now rewrite sanitize_name_canonical, IH.
Qed.

(** C9. The column normaliser is idempotent: normalising a normalised frame
    changes nothing, and a frame whose labels are already canonical (no
    upper-case letter, space, slash or period) is left as it is. *)
Theorem sanitize_columns_idempotent :
  (forall df, sanitize_columns (sanitize_columns df) = sanitize_columns df) /\
  (forall df, forallb canonical (columns df) = true -> sanitize_columns df = df).
Proof.
  split.
  - intros df. unfold sanitize_columns. simpl. f_equal.
    rewrite List.map_map. apply List.map_ext. intros c. apply sanitize_name_idempotent.
  - intros [cols rs]. unfold sanitize_columns. simpl. intros H. f_equal.
    induction cols as [|c cols IH]; [reflexivity|].
    simpl in H. apply andb_true_iff in H as [Hc Hcols].
    simpl. now rewrite sanitize_name_fixed, IH.
Qed.

Lemma sanitize_columns_idempotent_witness :
  let df := {| columns := ["account_no"; "chart_id"]; rows := [[Str "1001"; Int 3]] |} in
  forallb canonical (columns df) = true /\ sanitize_columns df = df.
Proof.
  split; [reflexivity|].
  apply (proj2 sanitize_columns_idempotent). reflexivity.
Defined.

(** The normaliser has no collision check: at two labels that differ only
    in case it returns a frame with both columns under one label, and the
    importer that called it goes on to load. *)
Lemma sanitize_columns_keeps_colliding_labels :
  "RAD" <> "rad" /\
  sanitize_name "RAD" = sanitize_name "rad" /\
  sanitize_columns colliding_rad =
    {| columns := ["rad_type_id"; "rad_type"; "rad_id"; "rad"; "rad"];
       rows := [[Int 1; Str "Fund"; Str "F1"; Str "General"; Str "g"]] |} /\
  _import_rad_type rad_only rad_type_pipelines [] =
    ([ ReadCsv "./source/Rad.csv";
       Log INFO "RAD data read from CSV.";
       Execute introspection ["rad_type"];
       ExecuteMany {| into := "rad_type"; fields := ["rad_type_id"; "rad_type"] |}
         [[Int 1; Str "Fund"]];
       Commit;
       Log INFO "Data imported into rad_type successfully." ],
     Ok tt).
Proof.
  split; [discriminate|].
  split; [reflexivity|].
  split; [reflexivity|].
  vm_compute. reflexivity.
Qed.

(** C4 (amended). [sanitize_columns] always returns: it relabels every
    column with its normalised name and keeps the number and order of the
    columns and all rows, so two source columns whose labels normalise to
    the same name both remain, under that one name. *)
Theorem sanitize_columns_keeps_every_column (df : DataFrame) :
  columns (sanitize_columns df) = List.map sanitize_name (columns df) /\
  length (columns (sanitize_columns df)) = length (columns df) /\
  rows (sanitize_columns df) = rows df /\
  forall i j c1 c2,
    i <> j ->
    nth_error (columns df) i = Some c1 ->
    nth_error (columns df) j = Some c2 ->
    sanitize_name c1 = sanitize_name c2 ->
    nth_error (columns (sanitize_columns df)) i = Some (sanitize_name c1) /\
    nth_error (columns (sanitize_columns df)) j = Some (sanitize_name c1).
Proof.
  split; [reflexivity|].
  split; [apply List.length_map|].
  split; [reflexivity|].
  intros i j c1 c2 _ Hi Hj Heq. simpl.
  rewrite !List.nth_error_map, Hi, Hj. simpl. now rewrite Heq.
Qed.

Lemma sanitize_columns_keeps_every_column_witness :
  nth_error (columns (sanitize_columns colliding_rad)) 3 = Some "rad" /\
  nth_error (columns (sanitize_columns colliding_rad)) 4 = Some "rad".
Proof.
  apply (proj2 (proj2 (proj2 (sanitize_columns_keeps_every_column colliding_rad)))
           3%nat 4%nat "RAD" "rad");
    [lia | reflexivity | reflexivity | reflexivity].
Defined.

(** ** The type coercer *)

Lemma rev_app_append s t acc :
  String.rev_app (s +:+ t) acc = String.rev_app t (String.rev_app s acc).
Proof. revert acc. induction s as [|c s IH]; intros acc; simpl; auto. Qed.

Lemma endswith_append s t : PyStr.endswith (s +:+ t) t = true.
Proof.
  unfold PyStr.endswith, String.rev. rewrite rev_app_append.
  generalize (String.rev_app s EmptyString) as acc.
  assert (G : forall a b acc, String.prefix (String.rev_app a b) (String.rev_app a (b +:+ acc)) = true).
  { induction a as [|c a IH]; intros b acc; simpl.
    - induction b as [|c b IHb]; simpl; [now destruct acc|].
      destruct (ascii_dec c c); [assumption|congruence].
    - apply (IH (String c b)). }
  intros acc. apply (G t EmptyString acc).
Qed.

Lemma length_append s t :
  String.length (s +:+ t) = (String.length s + String.length t)%nat.
Proof. induction s as [|c s IH]; simpl; auto. Qed.

Lemma substring_append s t : String.substring 0 (String.length s) (s +:+ t) = s.
Proof.
  induction s as [|c s IH]; simpl.
  - now destruct t.
  - now rewrite IH.
Qed.

Lemma sub_trailing_dot_zero_suffix s : sub_trailing_dot_zero (s +:+ ".0") = s.
Proof.
  unfold sub_trailing_dot_zero. rewrite endswith_append.
  rewrite length_append. simpl String.length.
  replace (String.length s + 2 - 2)%nat with (String.length s) by lia.
  apply substring_append.
Qed.

(** X1. The journal-entry importer strips exactly a trailing [.0], whatever
    precedes it, and leaves a string without that suffix as it is. *)
Lemma journal_entry_identifier_strips_suffix dt s :
  journal_entry_identifier dt (Str (s +:+ ".0")) = Str s /\
  (PyStr.endswith s ".0" = false -> PyStr.endswith s (".0" +:+ newline) = false ->
   journal_entry_identifier dt (Str s) = Str s).
Proof.
  split.
  - unfold journal_entry_identifier. simpl. now rewrite sub_trailing_dot_zero_suffix.
  - intros H1 H2. unfold journal_entry_identifier, sub_trailing_dot_zero. simpl.
    now rewrite H1, H2.
Qed.

(** The budget importer removes [.0] wherever it stands. *)
Example budget_account_no_inner_occurrence :
  budget_account_no (Str "10.05") = Str "105" /\
  journal_entry_identifier object (Str "10.05") = Str "10.05".
Proof. split; reflexivity. Qed.

(** ** The melter *)

Section SplitJoin.

Variable sep : ascii.

Lemma split_free s : char_free sep s = true -> PyStr.split sep s = [s].
Proof.
  unfold char_free. induction s as [|c s IH]; [reflexivity|].
  simpl. intros [Hc Hs]%andb_true_iff. apply negb_true_iff in Hc.
  rewrite Hc, IH by assumption. reflexivity.
Qed.

Lemma split_append s rest :
  char_free sep s = true ->
  PyStr.split sep (s +:+ String sep rest) = s :: PyStr.split sep rest.
Proof.
  unfold char_free. induction s as [|c s IH]; simpl.
  - intros _. now rewrite Ascii.eqb_refl.
  - intros [Hc Hs]%andb_true_iff. apply negb_true_iff in Hc.
    rewrite Hc, IH by assumption. reflexivity.
Qed.

(** Splitting a joined list gives the list back, when no element holds
    the separator. *)
Lemma split_join (l : list string) :
  l <> [] -> forallb (char_free sep) l = true ->
  PyStr.split sep (PyStr.join (String sep EmptyString) l) = l.
Proof.
  induction l as [|x l IH]; [congruence|].
  intros _ [Hx Hl]%andb_true_iff.
  destruct l as [|y l].
  - simpl. now apply split_free.
  - change (PyStr.join (String sep EmptyString) (x :: y :: l))
      with (x +:+ String sep (PyStr.join (String sep EmptyString) (y :: l))).
    rewrite split_append by assumption. f_equal. apply IH; [congruence|assumption].
Qed.

End SplitJoin.

Lemma combined_stringify cells :
  combined (List.map stringify cells) = PyStr.join "|" (List.map str (non_null cells)).
Proof.
  unfold combined, non_null. f_equal.
  induction cells as [|x cells IH]; [reflexivity|].
  simpl. unfold stringify at 1 2.
  destruct (isna x) eqn:E; simpl; [exact IH|].
  now rewrite IH.
Qed.

(** Exploding, blanking and dropping keeps one row per non-blank segment. *)
Lemma melt_row_segments family cols i row :
  melt_row family cols i row =
  List.map (fun v => [Int (Z.of_nat i + 1); Str v])
    (List.filter (fun v => negb (String.eqb v ""))
       (PyStr.split "|" (combined (List.map stringify (family_cells family cols row))))).
Proof.
  unfold melt_row.
  generalize (PyStr.split "|" (combined (List.map stringify (family_cells family cols row)))).
  intros segs. induction segs as [|v segs IH]; [reflexivity|].
  simpl. destruct v as [|c v]; simpl; [exact IH|].
  now rewrite IH.
Qed.

Lemma melt_row_values family cols i row :
  forallb pipe_free (List.map str (non_null (family_cells family cols row))) = true ->
  melt_row family cols i row =
  List.map (fun v => [Int (Z.of_nat i + 1); Str v])
    (category_values (family_cells family cols row)).
Proof.
  intros Hfree. rewrite melt_row_segments, combined_stringify. f_equal.
  unfold category_values.
  destruct (List.map str (non_null (family_cells family cols row))) as [|v vs] eqn:E.
  - reflexivity.
  - rewrite (split_join "|"); [reflexivity|congruence|exact Hfree].
Qed.

Lemma rows_of_melt_row family cols i j row :
  rows_of (Z.of_nat i + 1) (melt_row family cols j row) =
  if Nat.eqb i j then melt_row family cols j row else [].
Proof.
  rewrite melt_row_segments.
  generalize (List.filter (fun v => negb (String.eqb v ""))
       (PyStr.split "|" (combined (List.map stringify (family_cells family cols row))))).
  intros vs. induction vs as [|v vs IH]; simpl.
  - now destruct (Nat.eqb i j).
  - rewrite IH. destruct (Nat.eqb_spec i j) as [->|Hne].
    + now rewrite Z.eqb_refl.
    + destruct (Z.eqb_spec (Z.of_nat j + 1) (Z.of_nat i + 1)); [lia|reflexivity].
Qed.

Lemma rows_of_melt_rows family cols start rs k row :
  nth_error rs k = Some row ->
  rows_of (Z.of_nat (start + k) + 1) (melt_rows family cols start rs) =
  melt_row family cols (start + k) row.
Proof.
  unfold melt_rows. revert start k.
  induction rs as [|r rs IH]; intros start k Hk; [now destruct k|].
  simpl. unfold rows_of at 1. rewrite List.filter_app.
  fold (rows_of (Z.of_nat (start + k) + 1) (melt_row family cols start r)).
  fold (rows_of (Z.of_nat (start + k) + 1)
          (flat_map (fun ir => melt_row family cols (fst ir) (snd ir))
             (combine (seq (S start) (length rs)) rs))).
  rewrite rows_of_melt_row.
  destruct k as [|k]; simpl in Hk.
  - injection Hk as ->. rewrite Nat.add_0_r, Nat.eqb_refl.
    assert (G : forall n, (start < n)%nat ->
              rows_of (Z.of_nat start + 1)
                (flat_map (fun ir => melt_row family cols (fst ir) (snd ir))
                   (combine (seq n (length rs)) rs)) = []).
    { clear. induction rs as [|r rs IH]; intros n Hn; [reflexivity|].
      simpl. unfold rows_of at 1. rewrite List.filter_app.
      fold (rows_of (Z.of_nat start + 1) (melt_row family cols n r)).
      fold (rows_of (Z.of_nat start + 1)
              (flat_map (fun ir => melt_row family cols (fst ir) (snd ir))
                 (combine (seq (S n) (length rs)) rs))).
      rewrite rows_of_melt_row, IH by lia.
      destruct (Nat.eqb_spec start n); [lia|reflexivity]. }
    rewrite G by lia. now rewrite List.app_nil_r.
  - destruct (Nat.eqb_spec (start + S k) start); [lia|].
    simpl. replace (start + S k)%nat with (S start + k)%nat by lia.
    now apply IH.
Qed.

(** A value of the budget family that holds a pipe is split: one
    non-null value, two rows. *)
Lemma budget_melt_splits_value_with_pipe :
  let raw := {| columns := ["RAD 1"; "Amount"]; rows := [[Str "a|b"; Str "5"]] |} in
  non_null (family_cells budget_family (columns (sanitize_columns raw)) [Str "a|b"; Str "5"])
    = [Str "a|b"] /\
  budget_rad_frame raw =
    Ok {| columns := ["budget_id"; "rad_id"];
          rows := [[Int 1; Str "a"]; [Int 1; Str "b"]] |}.
Proof. split; reflexivity. Qed.

(** The family is found by containment, not by prefix: a column "Grade"
    belongs to it. Two labels that normalise to one make [explode] raise. *)
Example budget_family_is_not_a_prefix :
  budget_family (sanitize_name "Grade") = true /\
  budget_family (sanitize_name "RAD Description") = false.
Proof. split; reflexivity. Qed.

Example budget_melt_refuses_duplicate_labels :
  budget_rad_frame {| columns := ["RAD 1"; "rad 1"]; rows := [[Str "10"; Str "20"]] |} =
  Raise (ValueError "DataFrame columns must be unique.").
Proof. reflexivity. Qed.

(** X29. In the budget melter, on an extract whose normalised
    labels are distinct, a row at index [i] whose non-null family values
    hold no pipe yields exactly one row [(i + 1, v)] for each family value
    [v] that is neither null nor blank, in column order: [k] rows for [k]
    such values, each non-empty, and none when all are null or blank. The
    family is every column whose normalised label contains "rad" and not
    "description". *)
Theorem budget_melt_cardinality (raw : DataFrame) (i : nat) (row : list scalar) :
  nth_error (rows raw) i = Some row ->
  unique_labels (columns (sanitize_columns raw)) = true ->
  let cells := family_cells budget_family (columns (sanitize_columns raw)) row in
  forallb pipe_free (List.map str (non_null cells)) = true ->
  exists df_result,
    budget_rad_frame raw = Ok df_result /\
    rows_of (Z.of_nat i + 1) (rows df_result) =
      List.map (fun v => [Int (Z.of_nat i + 1); Str v]) (category_values cells) /\
    length (rows_of (Z.of_nat i + 1) (rows df_result)) = length (category_values cells) /\
    Forall (fun v => v <> EmptyString) (category_values cells) /\
    (category_values cells = [] -> rows_of (Z.of_nat i + 1) (rows df_result) = []).
Proof.
  intros Hrow Huniq cells Hfree.
  unfold budget_rad_frame, melt. rewrite Huniq.
  change (rows (sanitize_columns raw)) with (rows raw).
  destruct (rows raw) as [|r rs] eqn:Hrows; [now destruct i|].
  eexists. split; [reflexivity|]. simpl rows.
  assert (E : rows_of (Z.of_nat i + 1)
                (melt_rows budget_family (columns (sanitize_columns raw)) 0 (r :: rs)) =
              List.map (fun v => [Int (Z.of_nat i + 1); Str v]) (category_values cells)).
  { change (Z.of_nat i) with (Z.of_nat (0 + i)).
    rewrite (rows_of_melt_rows _ _ _ _ _ _ Hrow).
    now apply melt_row_values. }
  change (columns (sanitize_columns raw)) with (List.map sanitize_name (columns raw)) in E.
  split; [exact E|].
  split; [rewrite E; apply List.length_map|].
  split.
  - unfold category_values. apply List.Forall_forall. intros v Hv.
    apply List.filter_In in Hv as [_ Hv]. apply negb_true_iff in Hv.
    now apply String.eqb_neq in Hv.
  - intros Hnil. now rewrite E, Hnil.
Qed.

Lemma budget_melt_cardinality_witness :
  let raw := {| columns := ["Budget Id"; "RAD 1"; "RAD 2"; "RAD 3"; "RAD Description"];
                rows := [[Int 7; Str "10"; NaN; Str "20"; Str "x"]] |} in
  exists df_result,
    budget_rad_frame raw = Ok df_result /\
    rows_of 1 (rows df_result) = [[Int 1; Str "10"]; [Int 1; Str "20"]].
Proof.
  intros raw.
  destruct (budget_melt_cardinality raw 0 [Int 7; Str "10"; NaN; Str "20"; Str "x"]
              eq_refl eq_refl eq_refl) as (df_result & Hrun & Hrows & _).
  exists df_result. split; [exact Hrun|exact Hrows].
Defined.

(** The journal-entry melter looks for "RAD" in labels that
    [sanitize_columns] has lower-cased: its family is empty and it yields
    no row. *)
Lemma contains_RAD_lowercase s :
  PyStr.all_chars (fun c => negb (PyStr.is_upper c)) s = true ->
  PyStr.contains "RAD" s = false.
Proof.
  induction s as [|c s IH]; [reflexivity|].
  simpl PyStr.all_chars. intros [Hc Hs]%andb_true_iff.
  change (PyStr.contains "RAD" (String c s))
    with (String.prefix "RAD" (String c s) || PyStr.contains "RAD" s).
  rewrite IH by assumption. rewrite orb_false_r.
  rewrite prefix_cons. destruct (ascii_dec "R" c) as [<-|_]; [discriminate Hc|reflexivity].
Qed.

Lemma journal_entry_family_canonical c :
  canonical c = true -> journal_entry_family c = false.
Proof.
  intros H. unfold journal_entry_family. rewrite contains_RAD_lowercase; [reflexivity|].
  revert H. apply all_chars_impl. intros x. unfold canonical_char.
  now intros [[[? _]%andb_true_iff _]%andb_true_iff _]%andb_true_iff.
Qed.

Lemma journal_entry_melt_empty df df_result :
  forallb canonical (columns df) = true ->
  journal_entry_rad_frame df = Ok df_result ->
  rows df_result = [].
Proof.
  intros H. unfold journal_entry_rad_frame, melt.
  destruct (rows df) as [|r rs]; [discriminate|].
  destruct (unique_labels (columns df)); [|discriminate].
  intros [= <-]. simpl. unfold melt_rows.
  assert (F : List.filter journal_entry_family (columns df) = []).
  { induction (columns df) as [|c cols IH]; [reflexivity|].
    simpl in H. apply andb_true_iff in H as [Hc Hcols].
    simpl. rewrite journal_entry_family_canonical by assumption. now apply IH. }
  generalize (combine (seq 0 (length (r :: rs))) (r :: rs)). intros l.
  induction l as [|ir l IH]; [reflexivity|].
  simpl. rewrite IH, List.app_nil_r.
  unfold melt_row, family_cells. rewrite F. reflexivity.
Qed.

Example journal_entry_melt_finds_no_family :
  journal_entry_rad_frame
    (sanitize_columns {| columns := ["Entry Id"; "RAD 1"; "RAD 2"];
                         rows := [[Int 5; Str "10"; Str "20"]] |}) =
  Ok {| columns := ["journal_entry_id"; "rad_id"]; rows := [] |}.
Proof. reflexivity. Qed.

(** ** Util.import_func *)

Lemma positions_from_nonempty i name cols :
  positions_from i name cols <> [] <-> In name cols.
Proof.
  revert i. induction cols as [|c cols IH]; intros i; simpl; [tauto|].
  destruct (String.eqb_spec c name) as [->|Hne].
  - split; [auto|discriminate].
  - rewrite IH. split; [auto|]. intros [?|?]; [congruence|assumption].
Qed.

Lemma select_columns_In df keys c :
  In c (columns (select df keys)) <-> In c keys /\ In c (columns df).
Proof.
  unfold select. simpl. rewrite List.in_flat_map. split.
  - intros (k & Hk & Hc). apply List.in_map_iff in Hc as (n & <- & Hn).
    split; [assumption|]. apply (positions_from_nonempty 0).
    unfold positions in Hn. intros E. now rewrite E in Hn.
  - intros [Hk Hc]. exists c. split; [assumption|].
    apply (positions_from_nonempty 0) in Hc. unfold positions.
    destruct (positions_from 0 c (columns df)) as [|n ns]; [congruence|].
    now left.
Qed.

Lemma projection_In df (S : gset string) c :
  In c (projection df S) <-> In c (columns df) /\ c ∈ S.
Proof.
  unfold projection. rewrite List.filter_In. now rewrite bool_decide_eq_true.
Qed.

Lemma getitem_projection df (S : gset string) :
  getitem df (projection df S) = Ok (select df (projection df S)).
Proof.
  unfold getitem.
  destruct (List.find _ (projection df S)) as [k|] eqn:E; [|reflexivity].
  apply List.find_some in E as [Hk Hmiss]. apply projection_In in Hk as [Hk _].
  apply negb_true_iff in Hmiss.
  assert (existsb (String.eqb k) (columns df) = true); [|congruence].
  apply List.existsb_exists. exists k. split; [assumption|apply String.eqb_refl].
Qed.

(** What a call of [import_func] does, case by case. *)
Lemma import_func_run w df table h :
  import_func w df table h =
  let S := information_schema w table in
  let df' := loaded_frame w df table in
  let q := {| into := table; fields := columns df' |} in
  let failed e :=
    Log ERROR ("Error importing data into " +:+ table +:+ ": " +:+ exn_message e) in
  if empty df'
  then ([Execute introspection [table]; failed (no_matching_columns table S)],
        Raise (no_matching_columns table S))
  else match rows df' with
       | [] => ([Execute introspection [table]; failed (IndexError "list index out of range")],
                Raise (IndexError "list index out of range"))
       | row0 :: _ =>
           if negb (length row0 =? length (columns df'))%nat
           then ([Execute introspection [table]; failed row_length_mismatch],
                 Raise row_length_mismatch)
           else match executemany w (h ++ [Execute introspection [table]]) q (rows df') with
                | Some e =>
                    ([Execute introspection [table]; ExecuteMany q (rows df'); failed e], Raise e)
                | None =>
                    ([Execute introspection [table]; ExecuteMany q (rows df'); Commit;
                      Log INFO ("Data imported into " +:+ table +:+ " successfully.")], Ok tt)
                end
       end.
Proof.
  unfold import_func, try_except, bind, lift, emit, raise, log_exception, log_info.
  rewrite getitem_projection. fold (loaded_frame w df table).
  cbv zeta. simpl fst. simpl snd.
  destruct (empty (loaded_frame w df table)); [reflexivity|].
  destruct (rows (loaded_frame w df table)) as [|row0 rs]; [reflexivity|].
  destruct (negb _); [reflexivity|].
  rewrite !List.app_nil_r.
  destruct (executemany w _ _ _); reflexivity.
Qed.

Lemma loaded_frame_columns w df table c :
  In c (columns (loaded_frame w df table)) <->
  In c (columns df) /\ c ∈ information_schema w table.
Proof.
  unfold loaded_frame. simpl columns.
  change (flat_map _ _) with (columns (select df (projection df (information_schema w table)))).
  rewrite select_columns_In, projection_In. tauto.
Qed.

(** Scenario C: the extra column is dropped and every row is inserted. *)
Example import_func_drops_extra_column :
  import_func person_store
    {| columns := ["id"; "name"; "extra"];
       rows := [[Int 1; Str "Ann"; Str "x"]; [Int 2; Str ""; NaN]] |} "person" [] =
  ([ Execute introspection ["person"];
     ExecuteMany {| into := "person"; fields := ["id"; "name"] |}
       [[Int 1; Str "Ann"]; [Int 2; PyNone]];
     Commit;
     Log INFO "Data imported into person successfully." ],
   Ok tt).
Proof. vm_compute. reflexivity. Qed.

Example insert_query_of_two_columns :
  insert_query {| into := "person"; fields := ["id"; "name"] |} =
  "INSERT INTO person (id, name) VALUES (%s, %s)".
Proof. reflexivity. Qed.

Lemma import_func_fails_empty w df table h :
  empty (loaded_frame w df table) = true ->
  outcome (import_func w df table h) =
    Raise (no_matching_columns table (information_schema w table)) /\
  existsb is_insert (events (import_func w df table h)) = false /\
  existsb is_commit (events (import_func w df table h)) = false.
Proof.
  intros H. rewrite import_func_run. cbv zeta. rewrite H. repeat split.
Qed.

(** C7. When no column of the dataset is a column of the target table,
    [import_func] raises its "No matching columns" error; it issues no
    insert and does not commit. *)
Theorem import_func_empty_projection
  (w : World) (df : DataFrame) (table : string) (h : list event) :
  list_to_set (columns df) ∩ information_schema w table = (∅ : gset string) ->
  outcome (import_func w df table h) =
    Raise (no_matching_columns table (information_schema w table)) /\
  existsb is_insert (events (import_func w df table h)) = false /\
  existsb is_commit (events (import_func w df table h)) = false.
Proof.
  intros H. apply import_func_fails_empty.
  destruct (columns (loaded_frame w df table)) as [|c cs] eqn:E.
  - unfold empty. now rewrite E.
  - exfalso. assert (Hc : In c (columns (loaded_frame w df table))) by (rewrite E; now left).
    apply loaded_frame_columns in Hc as [Hdf HS].
    apply (not_elem_of_empty (C := gset string) c). rewrite <- H.
    apply elem_of_intersection. split; [|assumption].
    apply elem_of_list_to_set. now apply list_elem_of_In.
Qed.

Lemma import_func_empty_projection_witness :
  outcome (import_func person_store
             {| columns := ["Id"; "Name"]; rows := [[Int 1; Str "Ann"]] |} "person" []) =
    Raise (no_matching_columns "person" {[ "id"; "name" ]}) /\
  existsb is_insert (events (import_func person_store
             {| columns := ["Id"; "Name"]; rows := [[Int 1; Str "Ann"]] |} "person" [])) = false /\
  existsb is_commit (events (import_func person_store
             {| columns := ["Id"; "Name"]; rows := [[Int 1; Str "Ann"]] |} "person" [])) = false.
Proof.
  apply (import_func_empty_projection person_store
           {| columns := ["Id"; "Name"]; rows := [[Int 1; Str "Ann"]] |} "person" []).
  vm_compute. reflexivity.
Defined.

Lemma loaded_frame_no_rows w df table :
  rows df = [] -> empty (loaded_frame w df table) = true.
Proof.
  intros H. unfold empty, loaded_frame. simpl rows. rewrite H. simpl.
  now destruct (flat_map _ _).
Qed.

(** C10. A dataset without rows makes [import_func] raise the same error,
    with no insert and no commit, whatever its columns share with the
    schema. *)
Theorem import_func_no_rows
  (w : World) (df : DataFrame) (table : string) (h : list event) :
  rows df = [] ->
  outcome (import_func w df table h) =
    Raise (no_matching_columns table (information_schema w table)) /\
  existsb is_insert (events (import_func w df table h)) = false /\
  existsb is_commit (events (import_func w df table h)) = false.
Proof.
  intros H. now apply import_func_fails_empty, loaded_frame_no_rows.
Qed.

Lemma import_func_no_rows_witness :
  projection {| columns := ["id"; "name"]; rows := [] |} {[ "id"; "name" ]} = ["id"; "name"] /\
  outcome (import_func person_store {| columns := ["id"; "name"]; rows := [] |} "person" []) =
    Raise (no_matching_columns "person" {[ "id"; "name" ]}).
Proof.
  split; [vm_compute; reflexivity|].
  apply (import_func_no_rows person_store {| columns := ["id"; "name"]; rows := [] |} "person" []).
  reflexivity.
Defined.

(** ** The exception monad *)

Lemma bind_events {A B} (m : M A) (f : A -> M B) h :
  events (bind m f h) =
  events (m h) ++ match outcome (m h) with
                  | Ok a => events (f a (h ++ events (m h)))
                  | Raise _ => []
                  end.
Proof.
  unfold bind, events, outcome. destruct (m h) as [ev [a|e]]; simpl.
  - now destruct (f a (h ++ ev)).
  - now rewrite List.app_nil_r.
Qed.

Lemma bind_outcome {A B} (m : M A) (f : A -> M B) h :
  outcome (bind m f h) =
  match outcome (m h) with
  | Ok a => outcome (f a (h ++ events (m h)))
  | Raise e => Raise e
  end.
Proof.
  unfold bind, events, outcome. destruct (m h) as [ev [a|e]]; simpl; [|reflexivity].
  now destruct (f a (h ++ ev)).
Qed.

Lemma try_except_events {A} (m : M A) handler h :
  events (try_except m handler h) =
  events (m h) ++ match outcome (m h) with
                  | Ok _ => []
                  | Raise e => events (handler e (h ++ events (m h)))
                  end.
Proof.
  unfold try_except, events, outcome. destruct (m h) as [ev [a|e]]; simpl.
  - now rewrite List.app_nil_r.
  - now destruct (handler e (h ++ ev)).
Qed.

Lemma try_except_outcome {A} (m : M A) handler h :
  outcome (try_except m handler h) =
  match outcome (m h) with
  | Ok a => Ok a
  | Raise e => outcome (handler e (h ++ events (m h)))
  end.
Proof.
  unfold try_except, events, outcome. destruct (m h) as [ev [a|e]]; simpl; [reflexivity|].
  now destruct (handler e (h ++ ev)).
Qed.

Lemma surjective_run {A} (x : list event * result A) : x = (events x, outcome x).
Proof. now destruct x. Qed.

Lemma events_pair {A} (ev : list event) (r : result A) : events (ev, r) = ev.
Proof. reflexivity. Qed.

Lemma outcome_pair {A} (ev : list event) (r : result A) : outcome (ev, r) = r.
Proof. reflexivity. Qed.

Lemma lift_outcome {A} (r : result A) h : outcome (lift r h) = r.
Proof. reflexivity. Qed.

(** A sequence of statements runs its first part and, unless that raised,
    the rest. *)
Lemma run_each_app pre rest h :
  run_each (pre ++ rest) h =
  match outcome (run_each pre h) with
  | Ok _ =>
      (events (run_each pre h) ++ events (run_each rest (h ++ events (run_each pre h))),
       outcome (run_each rest (h ++ events (run_each pre h))))
  | Raise e => (events (run_each pre h), Raise e)
  end.
Proof.
  revert h. induction pre as [|s pre IH]; intros h.
  - simpl. rewrite List.app_nil_r. apply surjective_run.
  - change (run_each ((s :: pre) ++ rest)) with (bind s (fun _ => run_each (pre ++ rest))).
    change (run_each (s :: pre)) with (bind s (fun _ => run_each pre)).
    rewrite (surjective_run (bind s (fun _ => run_each (pre ++ rest)) h)).
    rewrite !bind_events, !bind_outcome.
    destruct (outcome (s h)) as [[]|e]; [|now rewrite List.app_nil_r].
    rewrite IH.
    destruct (outcome (run_each pre (h ++ events (s h)))) as [[]|e]; simpl.
    + now rewrite !List.app_assoc.
    + reflexivity.
Qed.

(** ** Load attempts *)

Lemma load_attempts_app a b :
  load_attempts (a ++ b) = load_attempts a ++ load_attempts b.
Proof.
  induction a as [|e a IH]; [reflexivity|].
  destruct e as [| |q [|t [|t' ps]]| | |]; simpl; rewrite IH; reflexivity.
Qed.

Lemma quiet_ret {A} (a : A) : quiet (ret a).
Proof. intros h. reflexivity. Qed.

Lemma quiet_lift {A} (r : result A) : quiet (lift r).
Proof. intros h. reflexivity. Qed.

Lemma quiet_raise {A} e : quiet (@raise A e).
Proof. intros h. reflexivity. Qed.

Lemma quiet_log lvl msg : quiet (emit (Log lvl msg)).
Proof. intros h. reflexivity. Qed.

Lemma quiet_bind {A B} (m : M A) (f : A -> M B) :
  quiet m -> (forall a, quiet (f a)) -> quiet (bind m f).
Proof.
  intros Hm Hf h. rewrite bind_events, load_attempts_app, Hm.
  destruct (outcome (m h)); [apply Hf|reflexivity].
Qed.

Lemma quiet_try_except {A} (m : M A) handler :
  quiet m -> (forall e, quiet (handler e)) -> quiet (try_except m handler).
Proof.
  intros Hm Hh h. rewrite try_except_events, load_attempts_app, Hm.
  destruct (outcome (m h)); [reflexivity|apply Hh].
Qed.

Lemma loads_at_most_quiet {A} t (m : M A) : quiet m -> loads_at_most t m.
Proof. intros Hm h. left. apply Hm. Qed.

Lemma loads_at_most_bind {A B} t (m : M A) (f : A -> M B) :
  quiet m -> (forall a, loads_at_most t (f a)) -> loads_at_most t (bind m f).
Proof.
  intros Hm Hf h. rewrite bind_events, load_attempts_app, Hm.
  destruct (outcome (m h)); [apply Hf|now left].
Qed.

Lemma load_attempts_import_func w df table h :
  load_attempts (events (import_func w df table h)) = [table].
Proof.
  rewrite import_func_run. cbv zeta.
  destruct (empty _); [reflexivity|].
  destruct (rows _); [reflexivity|].
  destruct (negb _); [reflexivity|].
  destruct (executemany _ _ _ _); reflexivity.
Qed.

Lemma loads_at_most_import_func w df table : loads_at_most table (import_func w df table).
Proof. intros h. right. apply load_attempts_import_func. Qed.

Lemma quiet_execute_query w sql : quiet (execute_query w sql).
Proof.
  apply quiet_try_except.
  - apply quiet_bind; [intros h; reflexivity|].
    intros df. apply quiet_bind; [apply quiet_log|intros; apply quiet_ret].
  - intros e. apply quiet_bind; [apply quiet_log|intros; apply quiet_raise].
Qed.

Lemma read_step_run w path info error h :
  read_step w path info error h =
  match read_csv w path with
  | Ok raw => ([ReadCsv path; Log INFO info], Ok (Some raw))
  | Raise e => ([ReadCsv path; Log ERROR (error +:+ exn_message e)], Ok None)
  end.
Proof.
  unfold read_step, try_except, bind, log_info, log_exception, emit, ret.
  now destruct (read_csv w path).
Qed.

Lemma quiet_read_step w path info error : quiet (read_step w path info error).
Proof. intros h. rewrite read_step_run. now destruct (read_csv w path). Qed.

Lemma loads_at_most_read_extract w path info error k t :
  (forall raw, loads_at_most t (k raw)) ->
  loads_at_most t (read_extract w path info error k).
Proof.
  intros Hk. unfold read_extract. apply loads_at_most_bind.
  - apply quiet_read_step.
  - intros [raw|]; [apply Hk|apply loads_at_most_quiet, quiet_ret].
Qed.

Ltac loads_at_most :=
  repeat first
    [ apply loads_at_most_read_extract; intros ?
    | apply loads_at_most_import_func
    | apply loads_at_most_bind; [|intros ?]
    | apply quiet_lift
    | apply quiet_execute_query ].

Lemma importers_load_at_most w p :
  Forall2 (fun imp t => loads_at_most t imp) (importers w p) load_order.
Proof.
  unfold importers, load_order.
  repeat apply List.Forall2_cons; try apply List.Forall2_nil;
    unfold _import_account, _import_rad_type, _import_rad, _import_business_unit,
      _import_account_rad_type, _import_budget, _import_budget_rad,
      _import_journal_entry, _import_journal_entry_rad, _import_budget_entry_admin_view;
    loads_at_most.
Qed.

Lemma run_each_sublist imps tables :
  Forall2 (fun imp t => loads_at_most t imp) imps tables ->
  forall h, sublist (load_attempts (events (run_each imps h))) tables.
Proof.
  induction 1 as [|imp t imps tables Himp _ IH]; intros h.
  - apply sublist_nil_l.
  - change (run_each (imp :: imps)) with (bind imp (fun _ => run_each imps)).
    rewrite bind_events, load_attempts_app.
    assert (R : sublist (load_attempts
                  match outcome (imp h) with
                  | Ok _ => events (run_each imps (h ++ events (imp h)))
                  | Raise _ => []
                  end) tables).
    { destruct (outcome (imp h)); [apply IH|apply sublist_nil_l]. }
    destruct (Himp h) as [-> | ->]; simpl.
    + now apply sublist_cons.
    + now apply sublist_skip.
Qed.

Lemma import_all_load_attempts w p h :
  load_attempts (events (import_all w p h)) =
  load_attempts (events (run_each (importers w p) h)).
Proof.
  unfold import_all. rewrite try_except_events, bind_events, !load_attempts_app.
  rewrite bind_outcome.
  destruct (outcome (run_each (importers w p) h)) as [[]|e]; simpl;
    now rewrite !List.app_nil_r.
Qed.

(** ** The importers that assign a frame to [df.columns] *)

(** Such an importer reads its extract and raises: whatever stands after
    the assignment is not reached. *)
Lemma raising_importer_run w p path info error line (k : DataFrame -> M unit) h :
  read_extract w path info error
    (fun raw => df <- assign_frame_to_columns p line raw ;; k df) h =
  match read_csv w path with
  | Ok raw => ([ReadCsv path; Log INFO info], Raise (columns_error p line raw))
  | Raise x => ([ReadCsv path; Log ERROR (error +:+ exn_message x)], Ok tt)
  end.
Proof.
  unfold read_extract, bind. rewrite read_step_run.
  destruct (read_csv w path); reflexivity.
Qed.

Lemma raising_importer_quiet w p path info error line (k : DataFrame -> M unit) :
  quiet (read_extract w path info error
           (fun raw => df <- assign_frame_to_columns p line raw ;; k df)).
Proof. intros h. rewrite raising_importer_run. now destruct (read_csv w path). Qed.

Lemma loads_within_quiet {A} (m : M A) : quiet m -> loads_within [] m.
Proof. intros H h. now rewrite H. Qed.

Lemma loads_within_at_most {A} t (m : M A) : loads_at_most t m -> loads_within [t] m.
Proof.
  intros H h. destruct (H h) as [-> | ->]; [apply sublist_nil_l|reflexivity].
Qed.

Lemma run_each_loads_within imps tss :
  Forall2 (fun imp ts => loads_within ts imp) imps tss ->
  forall h, sublist (load_attempts (events (run_each imps h))) (concat tss).
Proof.
  induction 1 as [|imp ts imps tss Himp _ IH]; intros h.
  - apply sublist_nil_l.
  - change (run_each (imp :: imps)) with (bind imp (fun _ => run_each imps)).
    rewrite bind_events, load_attempts_app. simpl concat.
    apply sublist_app; [apply Himp|].
    destruct (outcome (imp h)); [apply IH|apply sublist_nil_l].
Qed.

(** Of the ten importers, five can reach their call of [import_func]. *)
Lemma importers_load_within w p :
  Forall2 (fun imp ts => loads_within ts imp) (importers w p)
    [ ["account"]; ["rad_type"]; []; []; ["account_rad_type"]; []; ["budget_rad"];
      []; []; ["budget_entry_admin_view"] ].
Proof.
  pose proof (importers_load_at_most w p) as H.
  unfold importers, load_order in H.
  repeat (apply List.Forall2_cons_iff in H as [? H]).
  unfold importers.
  repeat apply List.Forall2_cons; try apply List.Forall2_nil;
    try (apply loads_within_at_most; assumption);
    apply loads_within_quiet, raising_importer_quiet.
Qed.

Lemma import_all_reachable w p h :
  sublist (load_attempts (events (import_all w p h))) reachable_tables.
Proof.
  rewrite import_all_load_attempts.
  apply (run_each_loads_within _ _ (importers_load_within w p)).
Qed.

Lemma never_loaded (t : string) w p h :
  t ∉ reachable_tables -> t ∉ load_attempts (events (import_all w p h)).
Proof.
  intros Ht Hin. apply Ht.
  exact (elem_of_sublist _ _ _ Hin (import_all_reachable w p h)).
Qed.

Ltac not_reachable :=
  let H := fresh in
  intros H; unfold reachable_tables in H;
  repeat (apply elem_of_cons in H as [H|H]; [discriminate H|]);
  now apply elem_of_nil in H.

(** X2. The table [journal_entry] is never reached: the importer that
    names it assigns a frame to [df.columns] before, and so does the one
    called before it on the same extract. *)
Lemma journal_entry_is_never_loaded w p h :
  ("journal_entry" : string) ∉ load_attempts (events (import_all w p h)).
Proof. apply never_loaded. not_reachable. Qed.

Lemma loads_before_budget w p h :
  sublist (load_attempts (events (run_each (importers_before_budget w p) h)))
    ["account"; "rad_type"; "account_rad_type"].
Proof.
  pose proof (importers_load_within w p) as H. unfold importers in H.
  repeat (apply List.Forall2_cons_iff in H as [? H]).
  apply (run_each_loads_within _ [["account"]; ["rad_type"]; []; []; ["account_rad_type"]]).
  unfold importers_before_budget.
  repeat (apply List.Forall2_cons; [assumption|]). apply List.Forall2_nil.
Qed.

(** A run in which one of the five importers that assign a frame to
    [df.columns] finds its extract begins no load from then on. *)
Lemma loads_end_at_the_assignment w p h pre post path info error line
  (k : DataFrame -> M unit) :
  importers w p =
    pre ++ read_extract w path info error
             (fun raw => df <- assign_frame_to_columns p line raw ;; k df) :: post ->
  is_ok (read_csv w path) = true ->
  load_attempts (events (import_all w p h)) = load_attempts (events (run_each pre h)).
Proof.
  intros Himps Hread. rewrite import_all_load_attempts, Himps, run_each_app.
  destruct (outcome (run_each pre h)) as [[]|e]; [|reflexivity].
  rewrite events_pair, load_attempts_app.
  match goal with
  | |- context [run_each (?imp :: post)] =>
      change (run_each (imp :: post)) with (bind imp (fun _ => run_each post))
  end.
  rewrite bind_events, raising_importer_run.
  destruct (read_csv w path); [|discriminate].
  rewrite events_pair, outcome_pair. now rewrite !List.app_nil_r.
Qed.

(** When [Budget.csv] can be read, the loads of a run are those begun
    before [_import_budget] is called. *)
Lemma loads_with_budget_extract w p h :
  is_ok (read_csv w "./source/Budget.csv") = true ->
  load_attempts (events (import_all w p h)) =
  load_attempts (events (run_each (importers_before_budget w p) h)).
Proof.
  apply (loads_end_at_the_assignment w p h (importers_before_budget w p)
           [_import_budget_rad w; _import_journal_entry w p; _import_journal_entry_rad w p;
            _import_budget_entry_admin_view w p]
           "./source/Budget.csv" "Budget data read from CSV." "Error reading Budget CSV: "
           215%nat
           (fun df => df <- lift (budget_frame p df) ;; import_func w df "budget")).
  reflexivity.
Qed.

(** X30. When the RAD extract can be read, the run gets no further than
    [_import_rad], the third importer: [account] and [rad_type] are the
    only tables whose load can be begun, whatever other extracts there
    are. *)
Theorem import_all_ends_at_the_rad_extract (w : World) (p : Pipelines) (h : list event) :
  is_ok (read_csv w "./source/Rad.csv") = true ->
  sublist (load_attempts (events (import_all w p h))) ["account"; "rad_type"].
Proof.
  intros Hread.
  rewrite (loads_end_at_the_assignment w p h [_import_account w p; _import_rad_type w p]
             [_import_business_unit w p; _import_account_rad_type w p; _import_budget w p;
              _import_budget_rad w; _import_journal_entry w p; _import_journal_entry_rad w p;
              _import_budget_entry_admin_view w p]
             "./source/Rad.csv" "RAD data read from CSV." "Error reading RAD CSV: " 321%nat
             (fun rad => rad <- lift (rad_frame p rad) ;; import_func w rad "rad")
             eq_refl Hread).
  pose proof (importers_load_within w p) as H. unfold importers in H.
  repeat (apply List.Forall2_cons_iff in H as [? H]).
  apply (run_each_loads_within _ [["account"]; ["rad_type"]]).
  repeat (apply List.Forall2_cons; [assumption|]). apply List.Forall2_nil.
Qed.

(** The RAD extract is there, and so is the business-unit extract: the
    type lines are loaded, and nothing after them. *)
Lemma import_all_ends_at_the_rad_extract_witness :
  load_attempts (events (import_all rad_and_units rad_type_pipelines [])) = ["rad_type"] /\
  sublist (load_attempts (events (import_all rad_and_units rad_type_pipelines [])))
    ["account"; "rad_type"].
Proof.
  split; [vm_compute; reflexivity|].
  apply (import_all_ends_at_the_rad_extract rad_and_units rad_type_pipelines []).
  reflexivity.
Defined.

(** C2. No run of [import_all] begins the load of [budget], of
    [journal_entry] or of [journal_entry_rad]: the loads a run begins are
    among [account], [rad_type], [account_rad_type], [budget_rad] and
    [budget_entry_admin_view], in that order. So the referenced tables
    [budget] and [journal_entry] are never loaded before their category
    tables; and [budget_rad] is loaded, when it is, without [budget], in a
    run in which [Budget.csv] could not be read. *)
Theorem import_all_never_loads_budget_or_journal_entry
  (w : World) (p : Pipelines) (h : list event) :
  let reached := load_attempts (events (import_all w p h)) in
  sublist reached reachable_tables /\
  (("budget" : string) ∉ reached) /\
  (("journal_entry" : string) ∉ reached) /\
  (("journal_entry_rad" : string) ∉ reached) /\
  (("budget_rad" : string) ∈ reached -> is_ok (read_csv w "./source/Budget.csv") = false).
Proof.
  intros reached. split; [apply import_all_reachable|].
  split; [apply never_loaded; not_reachable|].
  split; [apply never_loaded; not_reachable|].
  split; [apply never_loaded; not_reachable|].
  intros Hin. destruct (is_ok (read_csv w "./source/Budget.csv")) eqn:Hread; [|reflexivity].
  exfalso. unfold reached in Hin. rewrite (loads_with_budget_extract w p h Hread) in Hin.
  pose proof (elem_of_sublist _ _ _ Hin (loads_before_budget w p h)) as H.
  repeat (apply elem_of_cons in H as [H|H]; [discriminate H|]).
  now apply elem_of_nil in H.
Qed.

(** With both budget extracts at hand, the run ends in [_import_budget]:
    no load is begun and [budget.csv] is not read. With [budget.csv] as the
    only extract, the run loads [budget_rad] and commits it; [budget] is
    not loaded. *)
Lemma import_all_never_loads_budget_or_journal_entry_witness :
  import_all budget_pair rad_type_pipelines [] =
    ([ ReadCsv "./source/Account.csv";
       Log ERROR "Error Account CSV: No such file or directory";
       ReadCsv "./source/Rad.csv";
       Log ERROR "Error reading RAD CSV: No such file or directory";
       ReadCsv "./source/Rad.csv";
       Log ERROR "Error reading RAD CSV: No such file or directory";
       ReadCsv "./source/BusinessUnit.csv";
       Log ERROR "Error reading Business Unit CSV: No such file or directory";
       ReadCsv "./source/Rad_Account.csv";
       Log ERROR "Error RAD Account CSV: No such file or directory";
       ReadCsv "./source/Budget.csv";
       Log INFO "Budget data read from CSV.";
       Log ERROR ("Error during import_all: " +:+
                  exn_message (columns_error rad_type_pipelines 215 budget_extract)) ],
     Ok tt) /\
  (("budget" : string) ∉ load_attempts (events (import_all budget_pair rad_type_pipelines []))) /\
  load_attempts (events (import_all budget_rad_only rad_type_pipelines [])) = ["budget_rad"] /\
  In (ExecuteMany {| into := "budget_rad"; fields := ["budget_id"; "rad_id"] |}
        [[Int 1; Str "F10"]; [Int 1; Str "G20"]])
     (events (import_all budget_rad_only rad_type_pipelines [])) /\
  existsb is_commit (events (import_all budget_rad_only rad_type_pipelines [])) = true /\
  (("budget" : string) ∉ load_attempts (events (import_all budget_rad_only rad_type_pipelines []))) /\
  is_ok (read_csv budget_rad_only "./source/Budget.csv") = false.
Proof.
  destruct (import_all_never_loads_budget_or_journal_entry budget_pair rad_type_pipelines [])
    as (_ & Hpair & _).
  destruct (import_all_never_loads_budget_or_journal_entry budget_rad_only rad_type_pipelines [])
    as (_ & Hbudget & _ & _ & Hread).
  split; [vm_compute; reflexivity|].
  split; [exact Hpair|].
  split; [vm_compute; reflexivity|].
  split; [vm_compute; do 15 right; left; reflexivity|].
  split; [vm_compute; reflexivity|].
  split; [exact Hbudget|].
  apply Hread. vm_compute. apply list_elem_of_here.
Defined.

(** C3. The journal-entry melter emits no row for any entry, whatever
    category values the entry has. Once the extract is read,
    [_import_journal_entry] raises at its assignment to [df.columns]
    (line 283) and nothing is inserted; and the melter of lines 288-307
    itself, on the relabelled extract, finds no family column (it looks
    for "RAD" and "Description" in labels that were lower-cased) and
    yields no row for any parent id. The budget melter is its sibling
    without the two slips. *)
Theorem journal_entry_melter_emits_no_row
  (w : World) (p : Pipelines) (h : list event) (raw : DataFrame) :
  read_csv w "./source/JournalEntry.csv" = Ok raw ->
  _import_journal_entry w p h =
    ([ReadCsv "./source/JournalEntry.csv"; Log INFO "Journal Entry read from CSV."],
     Raise (columns_error p 283 raw)) /\
  (forall id df_result,
     journal_entry_rad_frame (sanitize_columns raw) = Ok df_result ->
     rows_of id (rows df_result) = []).
Proof.
  intros Hread. split.
  - unfold _import_journal_entry. rewrite raising_importer_run. now rewrite Hread.
  - intros id df_result Hmelt.
    now rewrite (journal_entry_melt_empty _ _
                   (sanitize_columns_labels_are_canonical_aux raw) Hmelt).
Qed.

(** An entry with the two category values F10 and G20: the sibling's
    family finds them, the importer raises, and the melter alone would
    return a frame without rows. *)
Lemma journal_entry_melter_emits_no_row_witness :
  category_values
    (family_cells budget_family (columns (sanitize_columns journal_extract))
       [Int 5; Float "1001.0"; Str "1,234.50"; Str "F10"; Str "G20"; Str "x"]) =
    ["F10"; "G20"] /\
  _import_journal_entry journal_only rad_type_pipelines [] =
    ([ReadCsv "./source/JournalEntry.csv"; Log INFO "Journal Entry read from CSV."],
     Raise (columns_error rad_type_pipelines 283 journal_extract)) /\
  journal_entry_rad_frame (sanitize_columns journal_extract) =
    Ok {| columns := ["journal_entry_id"; "rad_id"]; rows := [] |}.
Proof.
  destruct (journal_entry_melter_emits_no_row journal_only rad_type_pipelines []
              journal_extract eq_refl) as [Hrun _].
  split; [reflexivity|]. split; [exact Hrun|reflexivity].
Defined.

(** C5. The identifier columns are never coerced: [_import_budget] and
    [_import_journal_entry_rad], the two importers that hold the
    expressions, raise at their assignment to [df.columns] (lines 215 and
    236) as soon as their extract is read. The run of each is the read, its
    log line and that error; the expressions of lines 220 and 254-266 and
    the call of [import_func] are not reached. *)
Theorem identifier_columns_are_never_coerced
  (w : World) (p : Pipelines) (h : list event) :
  (forall raw,
     read_csv w "./source/Budget.csv" = Ok raw ->
     _import_budget w p h =
       ([ReadCsv "./source/Budget.csv"; Log INFO "Budget data read from CSV."],
        Raise (columns_error p 215 raw))) /\
  (forall raw,
     read_csv w "./source/JournalEntry.csv" = Ok raw ->
     _import_journal_entry_rad w p h =
       ([ReadCsv "./source/JournalEntry.csv"; Log INFO "Journal Entry read from CSV."],
        Raise (columns_error p 236 raw))).
Proof.
  split; intros raw Hread.
  - unfold _import_budget. rewrite raising_importer_run. now rewrite Hread.
  - unfold _import_journal_entry_rad. rewrite raising_importer_run. now rewrite Hread.
Qed.

(** The account number 123.0 of the budget extract and the account number
    1001.0 of the journal extract are not turned into 123 and 1001:
    nothing is. *)
Lemma identifier_columns_are_never_coerced_witness :
  _import_budget budget_only rad_type_pipelines [] =
    ([ReadCsv "./source/Budget.csv"; Log INFO "Budget data read from CSV."],
     Raise (columns_error rad_type_pipelines 215 budget_extract)) /\
  _import_journal_entry_rad journal_only rad_type_pipelines [] =
    ([ReadCsv "./source/JournalEntry.csv"; Log INFO "Journal Entry read from CSV."],
     Raise (columns_error rad_type_pipelines 236 journal_extract)).
Proof.
  split.
  - apply (proj1 (identifier_columns_are_never_coerced budget_only rad_type_pipelines [])).
    reflexivity.
  - apply (proj2 (identifier_columns_are_never_coerced journal_only rad_type_pipelines [])).
    reflexivity.
Defined.

(** ** Migration.import_all *)

(** An insert error in [_import_rad_type] ends the run: [import_all] logs
    it and returns, and neither [_import_rad] nor [_import_business_unit]
    nor any later importer is called, although their extracts can be
    read. *)
Lemma import_all_stops_after_insert_error :
  import_all rejecting_store rad_type_pipelines [] =
    ([ ReadCsv "./source/Account.csv";
       Log ERROR "Error Account CSV: No such file or directory";
       ReadCsv "./source/Rad.csv";
       Log INFO "RAD data read from CSV.";
       Execute introspection ["rad_type"];
       ExecuteMany {| into := "rad_type"; fields := ["rad_type_id"; "rad_type"] |}
         [[Int 1; Str "Fund"]];
       Log ERROR "Error importing data into rad_type: value too long for type character varying(3)";
       Log ERROR "Error during import_all: value too long for type character varying(3)" ],
     Ok tt) /\
  is_ok (read_csv rejecting_store "./source/BusinessUnit.csv") = true /\
  existsb (is_read_of "./source/BusinessUnit.csv")
    (events (import_all rejecting_store rad_type_pipelines [])) = false /\
  load_attempts (events (import_all rejecting_store rad_type_pipelines [])) = ["rad_type"].
Proof. repeat split; vm_compute; reflexivity. Qed.

Lemma importers_read_first w p imp :
  In imp (importers w p) ->
  exists path info error k, imp = read_extract w path info error k.
Proof.
  unfold importers. simpl.
  intros H. repeat destruct H as [<-|H]; try contradiction;
    do 4 eexists; reflexivity.
Qed.

Lemma read_extract_unreadable w path info error k h x :
  read_csv w path = Raise x ->
  read_extract w path info error k h =
    ([ReadCsv path; Log ERROR (error +:+ exn_message x)], Ok tt).
Proof.
  intros H. unfold read_extract, bind. rewrite read_step_run, H. reflexivity.
Qed.

Lemma import_all_outcome w p h : outcome (import_all w p h) = Ok tt.
Proof.
  unfold import_all. rewrite try_except_outcome, bind_outcome.
  destruct (outcome (run_each (importers w p) h)) as [[]|e]; reflexivity.
Qed.

(** C1 (amended). Every importer opens with the read of its extract, and
    an extract that cannot be read is logged and skipped: the importer
    returns and the next ones are called. Any error an importer raises
    (its pipeline's, or the insert or empty-projection error [import_func]
    re-raises) ends the run: [import_all] logs it and returns without
    calling any later importer. [import_all] itself never raises. *)
Theorem import_all_stops_at_first_raise
  (w : World) (p : Pipelines) (h : list event)
  (pre post : list (M unit)) (imp : M unit) :
  importers w p = pre ++ imp :: post ->
  outcome (run_each pre h) = Ok tt ->
  let h' := h ++ events (run_each pre h) in
  (exists path info error k,
     imp = read_extract w path info error k /\
     forall x, read_csv w path = Raise x ->
       imp h' = ([ReadCsv path; Log ERROR (error +:+ exn_message x)], Ok tt)) /\
  (outcome (imp h') = Ok tt ->
   events (import_all w p h) =
     events (run_each pre h) ++ events (imp h') ++
     events (try_except (run_each post ;; log_info "All data imported successfully.")
               import_all_handler (h' ++ events (imp h')))) /\
  (forall x, outcome (imp h') = Raise x ->
   import_all w p h =
     (events (run_each pre h) ++ events (imp h') ++
      [Log ERROR ("Error during import_all: " +:+ exn_message x)], Ok tt)) /\
  outcome (import_all w p h) = Ok tt.
Proof.
  intros Himps Hpre h'.
  split; [|split; [|split; [|apply import_all_outcome]]].
  - destruct (importers_read_first w p imp) as (path & info & error & k & ->).
    { rewrite Himps. apply List.in_elt. }
    exists path, info, error, k. split; [reflexivity|].
    intros x Hx. now apply read_extract_unreadable.
  - intros Himp. unfold import_all. rewrite Himps.
    rewrite !try_except_events, !bind_events, !bind_outcome.
    rewrite run_each_app, Hpre. fold h'. simpl events. simpl outcome.
    change (run_each (imp :: post)) with (bind imp (fun _ => run_each post)).
    rewrite bind_events, bind_outcome, Himp.
    rewrite <- !List.app_assoc. reflexivity.
  - intros x Himp. rewrite (surjective_run (import_all w p h)), import_all_outcome.
    f_equal. unfold import_all. rewrite Himps.
    rewrite try_except_events, bind_events, bind_outcome.
    rewrite run_each_app, Hpre. fold h'. simpl events. simpl outcome.
    change (run_each (imp :: post)) with (bind imp (fun _ => run_each post)).
    rewrite bind_events, bind_outcome, Himp.
    rewrite !List.app_nil_r, <- List.app_assoc. reflexivity.
Qed.

Lemma import_all_stops_at_first_raise_witness :
  import_all rejecting_store rad_type_pipelines [] =
    (events (run_each [_import_account rejecting_store rad_type_pipelines] []) ++
     events (_import_rad_type rejecting_store rad_type_pipelines
               ([] ++ events (run_each [_import_account rejecting_store rad_type_pipelines] []))) ++
     [Log ERROR ("Error during import_all: " +:+
                 exn_message (OtherError "StringDataRightTruncation"
                                "value too long for type character varying(3)"))],
     Ok tt).
Proof.
  apply (proj1 (proj2 (proj2
    (import_all_stops_at_first_raise rejecting_store rad_type_pipelines []
       [_import_account rejecting_store rad_type_pipelines]
       [_import_rad rejecting_store rad_type_pipelines;
        _import_business_unit rejecting_store rad_type_pipelines;
        _import_account_rad_type rejecting_store rad_type_pipelines;
        _import_budget rejecting_store rad_type_pipelines;
        _import_budget_rad rejecting_store;
        _import_journal_entry rejecting_store rad_type_pipelines;
        _import_journal_entry_rad rejecting_store rad_type_pipelines;
        _import_budget_entry_admin_view rejecting_store rad_type_pipelines]
       (_import_rad_type rejecting_store rad_type_pipelines)
       eq_refl ltac:(vm_compute; reflexivity))))).
  vm_compute. reflexivity.
Defined.

(** * The loader, the importers and the script in detail *)

(** ** Util.import_func: what is inserted and when it is committed *)

Lemma select_row_length df keys row :
  length (take_cells (flat_map (positions (columns df)) keys) row) =
  length (columns (select df keys)).
Proof.
  unfold take_cells, select. simpl. rewrite List.length_map.
  induction keys as [|k keys IH]; [reflexivity|].
  simpl. rewrite !List.length_app, List.length_map, IH. reflexivity.
Qed.

Lemma loaded_frame_rows w df table :
  rows (loaded_frame w df table) =
  List.map (fun row =>
              List.map blank_to_none
                (List.map nan_to_none
                   (take_cells (flat_map (positions (columns df))
                                  (projection df (information_schema w table))) row)))
    (rows df).
Proof. unfold loaded_frame, map_cells, select. simpl. now rewrite !List.map_map. Qed.

Lemma loaded_frame_rows_shape w df table :
  Forall (fun r => length r = length (columns (loaded_frame w df table)) /\
                   Forall (fun x => x <> NaN /\ x <> Str EmptyString) r)
    (rows (loaded_frame w df table)).
Proof.
  rewrite loaded_frame_rows. apply List.Forall_forall. intros r Hr.
  apply List.in_map_iff in Hr as (row & <- & _). split.
  - rewrite !List.length_map.
    change (columns (loaded_frame w df table))
      with (columns (select df (projection df (information_schema w table)))).
    rewrite <- (select_row_length df _ row). unfold take_cells.
    now rewrite List.length_map.
  - apply List.Forall_forall. intros x Hx.
    apply List.in_map_iff in Hx as (y & <- & Hy).
    apply List.in_map_iff in Hy as (z & <- & _).
    destruct z as [| |[|c s]| |]; simpl; split; discriminate.
Qed.

(** The row check of line 423 cannot fire: a row of the projected frame is
    as long as its list of labels. *)
Lemma loaded_frame_first_row w df table row0 rs :
  rows (loaded_frame w df table) = row0 :: rs ->
  negb (length row0 =? length (columns (loaded_frame w df table)))%nat = false.
Proof.
  intros H. pose proof (loaded_frame_rows_shape w df table) as F.
  rewrite H in F. apply List.Forall_inv in F as [-> _].
  now rewrite Nat.eqb_refl.
Qed.

(** X3. [import_func] returns exactly when it has committed; it then has
    issued one insert with all rows of the projected frame, right after
    the introspection. When it raises, nothing is committed and the last
    thing it does is log that error under the table's name. *)
Theorem import_func_commits_iff_returns
  (w : World) (df : DataFrame) (table : string) (h : list event) :
  let run := import_func w df table h in
  (outcome run = Ok tt <-> existsb is_commit (events run) = true) /\
  (outcome run = Ok tt ->
   events run =
     [ Execute introspection [table];
       ExecuteMany {| into := table; fields := columns (loaded_frame w df table) |}
         (rows (loaded_frame w df table));
       Commit;
       Log INFO ("Data imported into " +:+ table +:+ " successfully.") ]) /\
  (forall e, outcome run = Raise e ->
   exists evs,
     events run =
       evs ++ [Log ERROR ("Error importing data into " +:+ table +:+ ": " +:+ exn_message e)] /\
     existsb is_commit evs = false).
Proof.
  intros run. unfold run. rewrite import_func_run. cbv zeta.
  destruct (empty _).
  { repeat split; try discriminate.
    intros e [= <-]. now exists [Execute introspection [table]]. }
  destruct (rows _) as [|row0 rs] eqn:Hrows.
  { repeat split; try discriminate.
    intros e [= <-]. now exists [Execute introspection [table]]. }
  rewrite (loaded_frame_first_row _ _ _ _ _ Hrows).
  destruct (executemany _ _ _ _) as [x|].
  - repeat split; try discriminate.
    intros e [= <-]. eexists [_; _]. split; reflexivity.
  - repeat split; try discriminate; reflexivity.
Qed.



(** X5. An error of the store on the insert comes out of [import_func] as it
    is: the insert was sent with all rows, the error is logged, nothing is
    committed. *)
Theorem import_func_reraises_insert_error
  (w : World) (df : DataFrame) (table : string) (h : list event) (e : exn) :
  empty (loaded_frame w df table) = false ->
  executemany w (h ++ [Execute introspection [table]])
    {| into := table; fields := columns (loaded_frame w df table) |}
    (rows (loaded_frame w df table)) = Some e ->
  import_func w df table h =
    ([ Execute introspection [table];
       ExecuteMany {| into := table; fields := columns (loaded_frame w df table) |}
         (rows (loaded_frame w df table));
       Log ERROR ("Error importing data into " +:+ table +:+ ": " +:+ exn_message e) ],
     Raise e).
Proof.
  intros Hne Hex. rewrite import_func_run. cbv zeta. rewrite Hne.
  destruct (rows (loaded_frame w df table)) as [|row0 rs] eqn:Hrows.
  { unfold empty in Hne. rewrite Hrows in Hne. now destruct (columns _). }
  rewrite (loaded_frame_first_row _ _ _ _ _ Hrows).
  rewrite Hex. reflexivity.
Qed.

Lemma import_func_reraises_insert_error_witness :
  import_func rejecting_store
    {| columns := ["rad_type_id"; "rad_type"]; rows := [[Int 1; Str "Fund"]] |} "rad_type" [] =
    ([ Execute introspection ["rad_type"];
       ExecuteMany {| into := "rad_type"; fields := ["rad_type_id"; "rad_type"] |}
         [[Int 1; Str "Fund"]];
       Log ERROR "Error importing data into rad_type: value too long for type character varying(3)" ],
     Raise (OtherError "StringDataRightTruncation"
              "value too long for type character varying(3)")).
Proof.
  apply (import_func_reraises_insert_error rejecting_store
           {| columns := ["rad_type_id"; "rad_type"]; rows := [[Int 1; Str "Fund"]] |}
           "rad_type" []
           (OtherError "StringDataRightTruncation"
              "value too long for type character varying(3)")); vm_compute; reflexivity.
Defined.

(** ** Util.execute_query *)

(** [execute_query] hands on what the store answers, frame or error, as it
    is; it logs the one or the other, and does nothing else to the store:
    no load is begun, nothing inserted, nothing committed. *)
Theorem execute_query_passes_the_answer (w : World) (sql : string) (h : list event) :
  outcome (execute_query w sql h) = read_sql w h sql /\
  (exists lvl msg,
     events (execute_query w sql h) = [ReadSql sql; Log lvl msg] /\
     (lvl = INFO <-> is_ok (read_sql w h sql) = true)) /\
  load_attempts (events (execute_query w sql h)) = [] /\
  existsb is_insert (events (execute_query w sql h)) = false /\
  existsb is_commit (events (execute_query w sql h)) = false.
Proof.
  unfold execute_query, try_except, bind, log_info, log_exception, emit, ret, raise,
    events, outcome.
  destruct (read_sql w h sql) as [df|e]; simpl.
  - split; [reflexivity|]. split; [|repeat split].
    eexists _, _. split; [reflexivity|]. split; reflexivity.
  - split; [reflexivity|]. split; [|repeat split].
    eexists _, _. split; [reflexivity|]. split; discriminate.
Qed.

(** ** Util.sanitize_columns: what the labels look like afterwards *)

Lemma lower_char_space c : Ascii.eqb (PyStr.lower_char c) " " = Ascii.eqb c " ".
Proof. each_ascii c; reflexivity. Qed.

Lemma lower_char_idempotent c : PyStr.lower_char (PyStr.lower_char c) = PyStr.lower_char c.
Proof. each_ascii c; reflexivity. Qed.

Lemma lower_replace_space_lower s :
  PyStr.lower (PyStr.replace " " "_" (PyStr.lower s)) =
  PyStr.lower (PyStr.replace " " "_" s).
Proof.
  induction s as [|c s IH]; [reflexivity|].
  simpl PyStr.lower at 2. rewrite !replace_char_cons, lower_char_space.
  destruct (Ascii.eqb c " ").
  - change ("_" +:+ ?x) with (String "_" x). simpl. now rewrite IH.
  - simpl. now rewrite lower_char_idempotent, IH.
Qed.

Lemma replace_space_twice s :
  PyStr.replace " " "_" (PyStr.replace " " "_" s) = PyStr.replace " " "_" s.
Proof.
  apply replace_char_absent.
  apply all_chars_replace_char with (q := fun _ => true); [reflexivity| |].
  - intros c Hc _. now rewrite Hc.
  - induction s; simpl; auto.
Qed.

(** X6. After [sanitize_columns] every label is canonical: no upper-case
    letter, no space, no slash, no period is left in any of them, and
    there are as many labels as before. *)
Theorem sanitize_columns_labels_are_canonical (df : DataFrame) :
  forallb canonical (columns (sanitize_columns df)) = true /\
  length (columns (sanitize_columns df)) = length (columns df).
Proof.
  split; [apply sanitize_columns_labels_are_canonical_aux|apply List.length_map].
Qed.

(** X7. Normalisation does not see case, nor whether a word break is a space
    or an underscore: a label, its lower-cased form and its form with
    underscores for spaces all get the same name. *)
Theorem sanitize_name_ignores_case_and_spacing (c : string) :
  sanitize_name (PyStr.lower c) = sanitize_name c /\
  sanitize_name (PyStr.replace " " "_" c) = sanitize_name c.
Proof.
  unfold sanitize_name. split.
  - now rewrite lower_replace_space_lower.
  - now rewrite replace_space_twice.
Qed.

(** ** The melter: shape of what it emits, and what makes its importer fail *)

Lemma split_parts_free sep s :
  Forall (fun v => char_free sep v = true) (PyStr.split sep s).
Proof.
  induction s as [|c s IH]; [repeat constructor|].
  simpl. destruct (Ascii.eqb c sep) eqn:E.
  - constructor; [reflexivity|exact IH].
  - destruct (PyStr.split sep s) as [|v vs]; [repeat constructor; unfold char_free; simpl; now rewrite E|].
    apply List.Forall_cons_iff in IH as [Hv Hvs].
    constructor; [|exact Hvs]. unfold char_free in *. simpl. now rewrite E, Hv.
Qed.

Lemma melt_row_shape family cols i row r :
  In r (melt_row family cols i row) ->
  exists v, r = [Int (Z.of_nat i + 1); Str v] /\ v <> EmptyString /\ pipe_free v = true.
Proof.
  rewrite melt_row_segments. intros Hr.
  apply List.in_map_iff in Hr as (v & <- & Hv).
  apply List.filter_In in Hv as [Hv Hne].
  exists v. split; [reflexivity|]. split.
  - apply negb_true_iff in Hne. now apply String.eqb_neq in Hne.
  - pose proof (split_parts_free "|" (combined (List.map stringify (family_cells family cols row)))) as F.
    rewrite List.Forall_forall in F. now apply F.
Qed.

Lemma melt_rows_shape family cols start rs r :
  In r (melt_rows family cols start rs) ->
  exists i v,
    r = [Int (Z.of_nat i + 1); Str v] /\ (start <= i < start + length rs)%nat /\
    v <> EmptyString /\ pipe_free v = true.
Proof.
  unfold melt_rows. intros Hr.
  apply List.in_flat_map in Hr as ([i row] & Hin & Hr). simpl in Hr.
  apply melt_row_shape in Hr as (v & -> & Hne & Hfree).
  exists i, v. split; [reflexivity|]. split; [|now split].
  apply List.in_combine_l in Hin. now apply List.in_seq in Hin.
Qed.

(** X8. Whenever the budget melter returns a frame, it has the two columns
    [budget_id] and [rad_id], and every row is a parent id between 1 and
    the number of rows of the extract with a value that is a non-empty
    string without a pipe: no missing cell survives. *)
Theorem budget_rad_frame_shape (raw df_result : DataFrame) :
  budget_rad_frame raw = Ok df_result ->
  columns df_result = ["budget_id"; "rad_id"] /\
  Forall (fun r => exists i v,
                     r = [Int i; Str v] /\
                     (1 <= i <= Z.of_nat (length (rows raw)))%Z /\
                     v <> EmptyString /\ pipe_free v = true)
    (rows df_result).
Proof.
  unfold budget_rad_frame, melt. change (rows (sanitize_columns raw)) with (rows raw).
  destruct (rows raw) as [|r0 rs] eqn:Hrows; [discriminate|].
  destruct (unique_labels _); [|discriminate].
  intros [= <-]. split; [reflexivity|]. simpl rows.
  apply List.Forall_forall. intros r Hr.
  apply melt_rows_shape in Hr as (i & v & -> & Hi & Hne & Hfree).
  exists (Z.of_nat i + 1)%Z, v. repeat split; try assumption; lia.
Qed.

Lemma budget_rad_frame_shape_witness :
  columns {| columns := ["budget_id"; "rad_id"];
             rows := [[Int 1; Str "10"]; [Int 1; Str "20"]] |} = ["budget_id"; "rad_id"].
Proof.
  apply (proj1 (budget_rad_frame_shape
                  {| columns := ["Budget Id"; "RAD 1"; "RAD 2"; "RAD 3"; "RAD Description"];
                     rows := [[Int 7; Str "10"; NaN; Str "20"; Str "x"]] |}
                  _ eq_refl)).
Defined.

Lemma melt_rows_nothing family cols start rs :
  (forall row, In row rs -> category_values (family_cells family cols row) = []) ->
  melt_rows family cols start rs = [].
Proof.
  unfold melt_rows. revert start. induction rs as [|r rs IH]; intros start Hall; [reflexivity|].
  simpl. rewrite IH by (intros row Hrow; apply Hall; now right).
  rewrite List.app_nil_r.
  assert (Hr : category_values (family_cells family cols r) = []) by (apply Hall; now left).
  rewrite melt_row_values; [now rewrite Hr|].
  unfold category_values in Hr.
  induction (List.map str (non_null (family_cells family cols r))) as [|v vs IHv]; [reflexivity|].
  simpl in Hr. destruct (String.eqb_spec v "") as [->|Hne]; simpl in Hr; [|discriminate].
  simpl. now apply IHv.
Qed.

Lemma existsb_app_false {A} (f : A -> bool) a b :
  existsb f a = false -> existsb f b = false -> existsb f (a ++ b) = false.
Proof. intros Ha Hb. now rewrite List.existsb_app, Ha, Hb. Qed.

(** X9. A budget extract in which no row has a category value (no family
    column, or only null and blank cells in them) makes [_import_budget_rad]
    raise once the extract is read; nothing is inserted or committed. An
    extract without categories is not loaded as "no rows": it is an
    error, and it ends the run of [import_all]. *)
Theorem _import_budget_rad_needs_a_category (w : World) (h : list event) (raw : DataFrame) :
  read_csv w "./source/budget.csv" = Ok raw ->
  (forall row, In row (rows raw) ->
     category_values (family_cells budget_family (columns (sanitize_columns raw)) row) = []) ->
  (exists x, outcome (_import_budget_rad w h) = Raise x) /\
  existsb is_insert (events (_import_budget_rad w h)) = false /\
  existsb is_commit (events (_import_budget_rad w h)) = false.
Proof.
  intros Hread Hall. unfold _import_budget_rad, read_extract.
  rewrite !bind_events, !bind_outcome, read_step_run, Hread. simpl outcome. simpl events.
  cbv beta iota. rewrite !bind_events, !bind_outcome, !lift_outcome.
  change (events (lift ?r ?x)) with (@nil event).
  unfold budget_rad_frame, melt. change (rows (sanitize_columns raw)) with (rows raw).
  destruct (rows raw) as [|r0 rs] eqn:Hrows; [simpl; eauto|].
  destruct (unique_labels _); [|simpl; eauto].
  rewrite melt_rows_nothing by exact Hall.
  set (df := {| columns := ["budget_id"; "rad_id"]; rows := [] |}).
  set (h' := (h ++ _) ++ _).
  destruct (import_func_fails_empty w df "budget_rad" h'
              (loaded_frame_no_rows w df "budget_rad" eq_refl)) as (Hout & Hins & Hcom).
  split; [rewrite Hout; eauto|].
  split; apply (existsb_app_false _ [_; _]); try reflexivity; simpl; assumption.
Qed.

Lemma _import_budget_rad_needs_a_category_witness :
  let w := {| read_csv := fun _ => Ok {| columns := ["Budget Id"; "RAD 1"; "Amount"];
                                         rows := [[Int 7; NaN; Str "5"]] |};
              read_sql := fun _ _ => Raise no_such_relation;
              information_schema := fun _ => {[ "budget_id"; "rad_id" ]};
              executemany := fun _ _ _ => None |} in
  (exists x, outcome (_import_budget_rad w []) = Raise x) /\
  existsb is_insert (events (_import_budget_rad w [])) = false /\
  existsb is_commit (events (_import_budget_rad w [])) = false.
Proof.
  intros w.
  apply (_import_budget_rad_needs_a_category w []
           {| columns := ["Budget Id"; "RAD 1"; "Amount"]; rows := [[Int 7; NaN; Str "5"]] |}
           eq_refl).
  intros row [<-|[]]. reflexivity.
Defined.

(** X10. On a frame that [sanitize_columns] has relabelled, the journal-entry
    melter never emits a row, whatever the extract holds: it looks for
    "RAD" in labels that have no upper-case letter left. *)
Theorem journal_entry_melter_emits_nothing (df df_result : DataFrame) :
  journal_entry_rad_frame (sanitize_columns df) = Ok df_result ->
  rows df_result = [] /\ columns df_result = ["journal_entry_id"; "rad_id"].
Proof.
  intros H. split.
  - exact (journal_entry_melt_empty _ _ (sanitize_columns_labels_are_canonical_aux df) H).
  - unfold journal_entry_rad_frame, melt in H.
    destruct (rows (sanitize_columns df)); [discriminate|].
    destruct (unique_labels _); [|discriminate].
    now injection H as <-.
Qed.

Lemma journal_entry_melter_emits_nothing_witness :
  exists df_result,
    journal_entry_rad_frame
      (sanitize_columns {| columns := ["Entry Id"; "RAD 1"; "RAD 2"];
                           rows := [[Int 5; Str "10"; Str "20"]] |}) = Ok df_result /\
    rows df_result = [] /\ columns df_result = ["journal_entry_id"; "rad_id"].
Proof.
  eexists. split; [reflexivity|].
  apply (journal_entry_melter_emits_nothing
           {| columns := ["Entry Id"; "RAD 1"; "RAD 2"];
              rows := [[Int 5; Str "10"; Str "20"]] |}).
  reflexivity.
Defined.

Lemma journal_entry_is_never_loaded_witness :
  ("journal_entry" : string) ∉
    load_attempts (events (import_all journal_only rad_type_pipelines [])).
Proof. apply (journal_entry_is_never_loaded journal_only rad_type_pipelines []). Defined.

(** ** The type coercer: identifiers *)

Lemma replace_dot_zero_append s t :
  char_free "." s = true ->
  PyStr.replace ".0" "" (s +:+ t) = s +:+ PyStr.replace ".0" "" t.
Proof.
  unfold char_free, PyStr.replace. induction s as [|c s IH]; [reflexivity|].
  simpl PyStr.all_chars. intros [Hc Hs]%andb_true_iff.
  change (String c s +:+ t) with (String c (s +:+ t)).
  change (PyStr.replace_from ".0" "" 0 (String c (s +:+ t)))
    with (if String.prefix ".0" (String c (s +:+ t))
          then "" +:+ PyStr.replace_from ".0" "" 1 (s +:+ t)
          else String c (PyStr.replace_from ".0" "" 0 (s +:+ t))).
  rewrite prefix_cons.
  destruct (ascii_dec "." c) as [<-|_]; [discriminate Hc|].
  rewrite IH by assumption. reflexivity.
Qed.

Lemma append_empty_r s : s +:+ "" = s.
Proof.
  induction s as [|c s IH]; [reflexivity|].
  change (String c (s +:+ "") = String c s). now rewrite IH.
Qed.

(** X11. The budget importer's [account_no] expression gives back the integer
    text of an identifier that pandas read as a float: for digits (any
    text without a period) [s], the cell [s.0] becomes [s], and [s] itself
    stays [s]. *)
Theorem budget_account_no_restores_integer_text (s : string) :
  char_free "." s = true ->
  budget_account_no (Float (s +:+ ".0")) = Str s /\
  budget_account_no (Str (s +:+ ".0")) = Str s /\
  budget_account_no (Str s) = Str s.
Proof.
  intros H. unfold budget_account_no, str_replace. simpl str.
  repeat split; f_equal.
  - rewrite replace_dot_zero_append by assumption.
    change (PyStr.replace ".0" "" ".0") with EmptyString. apply append_empty_r.
  - rewrite replace_dot_zero_append by assumption.
    change (PyStr.replace ".0" "" ".0") with EmptyString. apply append_empty_r.
  - rewrite <- (append_empty_r s) at 1.
    rewrite replace_dot_zero_append by assumption. apply append_empty_r.
Qed.

Lemma budget_account_no_restores_integer_text_witness :
  budget_account_no (Float ("1001" +:+ ".0")) = Str "1001" /\
  budget_account_no (Str ("1001" +:+ ".0")) = Str "1001" /\
  budget_account_no (Str "1001") = Str "1001".
Proof. apply (budget_account_no_restores_integer_text "1001"). reflexivity. Defined.

Lemma journal_entry_identifier_strips_suffix_witness :
  journal_entry_identifier object (Str "10.05") = Str "10.05".
Proof.
  apply (proj2 (journal_entry_identifier_strips_suffix object "10.05"));
    vm_compute; reflexivity.
Defined.

(** ** Invariants of traces *)

Section TraceInvariant.

Variable P : list event -> Prop.
Hypothesis P_nil : P [].
Hypothesis P_app : forall a b, P a -> P b -> P (a ++ b).

Lemma keeps_ret {A} (a : A) : keeps P (ret a).
Proof. intros h. exact P_nil. Qed.

Lemma keeps_lift {A} (r : result A) : keeps P (lift r).
Proof. intros h. exact P_nil. Qed.


Lemma keeps_bind {A B} (m : M A) (f : A -> M B) :
  keeps P m -> (forall a, keeps P (f a)) -> keeps P (bind m f).
Proof.
  intros Hm Hf h. rewrite bind_events. apply P_app; [apply Hm|].
  destruct (outcome (m h)); [apply Hf|exact P_nil].
Qed.

Lemma keeps_try_except {A} (m : M A) handler :
  keeps P m -> (forall e, keeps P (handler e)) -> keeps P (try_except m handler).
Proof.
  intros Hm Hh h. rewrite try_except_events. apply P_app; [apply Hm|].
  destruct (outcome (m h)); [exact P_nil|apply Hh].
Qed.

Lemma keeps_run_each (stmts : list (M unit)) :
  Forall (keeps P) stmts -> keeps P (run_each stmts).
Proof.
  induction 1 as [|s stmts Hs _ IH]; [apply keeps_ret|].
  apply keeps_bind; [exact Hs|intros _; exact IH].
Qed.

Hypothesis P_log : forall lvl msg, P [Log lvl msg].
Hypothesis P_read : forall path, P [ReadCsv path].
Hypothesis P_sql : forall sql, P [ReadSql sql].

Lemma keeps_log lvl msg : keeps P (emit (Log lvl msg)).
Proof. intros h. apply P_log. Qed.

Lemma keeps_read_step w path info error : keeps P (read_step w path info error).
Proof.
  intros h. rewrite read_step_run.
  destruct (read_csv w path); apply (P_app [_] [_]); auto.
Qed.

Lemma keeps_execute_query w sql : keeps P (execute_query w sql).
Proof.
  intros h. unfold execute_query, try_except, bind, log_info, log_exception, emit, ret, raise.
  destruct (read_sql w h sql); apply (P_app [_] [_]); auto.
Qed.

Lemma keeps_read_extract w path info error k :
  (forall raw, keeps P (k raw)) -> keeps P (read_extract w path info error k).
Proof.
  intros Hk. apply keeps_bind; [apply keeps_read_step|].
  intros [raw|]; [apply Hk|apply keeps_ret].
Qed.

(** Whatever every call of [import_func] keeps, [import_all] keeps. *)
Lemma keeps_import_all w p :
  (forall df table, keeps P (import_func w df table)) -> keeps P (import_all w p).
Proof.
  intros Himp. unfold import_all.
  apply keeps_try_except; [|intros e; apply keeps_log].
  apply keeps_bind; [|intros _; apply keeps_log].
  apply keeps_run_each. unfold importers.
  repeat apply List.Forall_cons; try apply List.Forall_nil;
    unfold _import_account, _import_rad_type, _import_rad, _import_business_unit,
      _import_account_rad_type, _import_budget, _import_budget_rad,
      _import_journal_entry, _import_journal_entry_rad, _import_budget_entry_admin_view;
    repeat first
      [ apply keeps_read_extract; intros ?
      | apply Himp
      | apply keeps_lift
      | apply keeps_execute_query
      | apply keeps_bind; [|intros ?] ].
Qed.

End TraceInvariant.

(** The same for a property that also sees the history. *)
Section TraceInvariantFrom.

Variable P : list event -> list event -> Prop.
Hypothesis P_nil : forall h, P h [].
Hypothesis P_app : forall h a b, P h a -> P (h ++ a) b -> P h (a ++ b).

Lemma keeps_from_ret {A} (a : A) : keeps_from P (ret a).
Proof. intros h. apply P_nil. Qed.

Lemma keeps_from_raise {A} e : keeps_from P (@raise A e).
Proof. intros h. apply P_nil. Qed.

Lemma keeps_from_lift {A} (r : result A) : keeps_from P (lift r).
Proof. intros h. apply P_nil. Qed.

Lemma keeps_from_bind {A B} (m : M A) (f : A -> M B) :
  keeps_from P m -> (forall a, keeps_from P (f a)) -> keeps_from P (bind m f).
Proof.
  intros Hm Hf h. rewrite bind_events. apply P_app; [apply Hm|].
  destruct (outcome (m h)); [apply Hf|apply P_nil].
Qed.

Lemma keeps_from_try_except {A} (m : M A) handler :
  keeps_from P m -> (forall e, keeps_from P (handler e)) ->
  keeps_from P (try_except m handler).
Proof.
  intros Hm Hh h. rewrite try_except_events. apply P_app; [apply Hm|].
  destruct (outcome (m h)); [apply P_nil|apply Hh].
Qed.

Lemma keeps_from_run_each (stmts : list (M unit)) :
  Forall (keeps_from P) stmts -> keeps_from P (run_each stmts).
Proof.
  induction 1 as [|s stmts Hs _ IH]; [apply keeps_from_ret|].
  apply keeps_from_bind; [exact Hs|intros _; exact IH].
Qed.

Hypothesis P_log : forall h lvl msg, P h [Log lvl msg].
Hypothesis P_read : forall h path, P h [ReadCsv path].
Hypothesis P_sql : forall h sql, P h [ReadSql sql].

Lemma keeps_from_log lvl msg : keeps_from P (emit (Log lvl msg)).
Proof. intros h. apply P_log. Qed.

Lemma keeps_from_read_step w path info error :
  keeps_from P (read_step w path info error).
Proof.
  intros h. rewrite read_step_run.
  destruct (read_csv w path); apply (P_app h [_] [_]); auto.
Qed.

Lemma keeps_from_execute_query w sql : keeps_from P (execute_query w sql).
Proof.
  intros h. unfold execute_query, try_except, bind, log_info, log_exception, emit, ret, raise.
  destruct (read_sql w h sql); apply (P_app h [_] [_]); auto.
Qed.

Lemma keeps_from_read_extract w path info error k :
  (forall raw, keeps_from P (k raw)) -> keeps_from P (read_extract w path info error k).
Proof.
  intros Hk. apply keeps_from_bind; [apply keeps_from_read_step|].
  intros [raw|]; [apply Hk|apply keeps_from_ret].
Qed.

Lemma keeps_from_import_all w p :
  (forall df table, keeps_from P (import_func w df table)) -> keeps_from P (import_all w p).
Proof.
  intros Himp. unfold import_all.
  apply keeps_from_try_except; [|intros e; apply keeps_from_log].
  apply keeps_from_bind; [|intros _; apply keeps_from_log].
  apply keeps_from_run_each. unfold importers.
  repeat apply List.Forall_cons; try apply List.Forall_nil;
    unfold _import_account, _import_rad_type, _import_rad, _import_business_unit,
      _import_account_rad_type, _import_budget, _import_budget_rad,
      _import_journal_entry, _import_journal_entry_rad, _import_budget_entry_admin_view,
      assign_frame_to_columns;
    repeat first
      [ apply keeps_from_read_extract; intros ?
      | apply Himp
      | apply keeps_from_lift
      | apply keeps_from_raise
      | apply keeps_from_execute_query
      | apply keeps_from_bind; [|intros ?] ].
Qed.

End TraceInvariantFrom.

Lemma no_commit_follows_accepted w h tr :
  existsb is_commit tr = false -> commits_follow_accepted_inserts w h tr.
Proof.
  intros H pre post E. exfalso. rewrite E, List.existsb_app in H.
  apply orb_false_iff in H as [_ H]. discriminate H.
Qed.

Lemma commits_follow_accepted_inserts_app w h a b :
  commits_follow_accepted_inserts w h a ->
  commits_follow_accepted_inserts w (h ++ a) b ->
  commits_follow_accepted_inserts w h (a ++ b).
Proof.
  intros Ha Hb pre post E.
  apply List.app_eq_app in E as [l [[-> E]|[-> E]]].
  - destruct l as [|x l].
    + simpl in E.
      destruct (Hb [] post (eq_sym E)) as (pre' & q & rs & Hpre & _).
      now destruct pre'.
    + injection E as <- ->. now apply (Ha pre l).
  - destruct (Hb l post E) as (pre' & q & rs & -> & Hq).
    exists (a ++ pre'), q, rs. split; [now rewrite List.app_assoc|].
    now rewrite List.app_assoc.
Qed.

Lemma import_func_commits_follow_accepted w df table :
  keeps_from (commits_follow_accepted_inserts w) (import_func w df table).
Proof.
  intros h. rewrite import_func_run. cbv zeta.
  destruct (empty _); [now apply no_commit_follows_accepted|].
  destruct (rows _); [now apply no_commit_follows_accepted|].
  destruct (negb _); [now apply no_commit_follows_accepted|].
  destruct (executemany _ _ _ _) eqn:Hstore; [now apply no_commit_follows_accepted|].
  rewrite events_pair. intros pre post E.
  destruct pre as [|e1 [|e2 [|e3 [|e4 pre]]]]; simpl in E; try discriminate E.
  - injection E as <- <- _.
    exists [Execute introspection [table]]. do 2 eexists. split; [reflexivity|exact Hstore].
  - injection E as _ _ _ _ E. now destruct pre.
Qed.

(** X14. In a run of [import_all] every commit comes directly after a bulk
    insert, and the store had taken that insert: nothing else of the
    import is ever committed, and an insert that the store turned down is
    never followed by a commit. *)
Theorem import_all_commits_only_inserts (w : World) (p : Pipelines) (h : list event) :
  (forall pre post,
     events (import_all w p h) = pre ++ Commit :: post ->
     exists pre' q rs,
       pre = pre' ++ [ExecuteMany q rs] /\ executemany w (h ++ pre') q rs = None) /\
  (forall pre q rs e post,
     events (import_all w p h) = pre ++ ExecuteMany q rs :: post ->
     executemany w (h ++ pre) q rs = Some e ->
     forall post', post <> Commit :: post').
Proof.
  assert (K : commits_follow_accepted_inserts w h (events (import_all w p h))).
  { apply (keeps_from_import_all (commits_follow_accepted_inserts w)).
    - intros h'. now apply no_commit_follows_accepted.
    - intros h' a b. apply commits_follow_accepted_inserts_app.
    - intros h' lvl msg. now apply no_commit_follows_accepted.
    - intros h' path. now apply no_commit_follows_accepted.
    - intros h' sql. now apply no_commit_follows_accepted.
    - apply import_func_commits_follow_accepted. }
  split; [exact K|].
  intros pre q rs e post E Hstore post' ->.
  destruct (K (pre ++ [ExecuteMany q rs]) post') as (pre' & q' & rs' & Hpre & Hq).
  { rewrite E, <- List.app_assoc. reflexivity. }
  apply List.app_inj_tail in Hpre as [<- [= <- <-]]. congruence.
Qed.

(** The commit of the run on the RAD extract: it follows the insert of the
    type lines, which the store took. *)
Lemma import_all_commits_only_inserts_witness :
  exists pre' q rs,
    [ ReadCsv "./source/Account.csv";
      Log ERROR "Error Account CSV: No such file or directory";
      ReadCsv "./source/Rad.csv";
      Log INFO "RAD data read from CSV.";
      Execute introspection ["rad_type"];
      ExecuteMany {| into := "rad_type"; fields := ["rad_type_id"; "rad_type"] |}
        [[Int 1; Str "Fund"]] ] = pre' ++ [ExecuteMany q rs] /\
    executemany rad_and_units ([] ++ pre') q rs = None.
Proof.
  apply (proj1 (import_all_commits_only_inserts rad_and_units rad_type_pipelines []) _
           [ Log INFO "Data imported into rad_type successfully.";
             ReadCsv "./source/Rad.csv";
             Log INFO "RAD data read from CSV.";
             Log ERROR ("Error during import_all: " +:+
                        exn_message (columns_error rad_type_pipelines 321 rad_extract)) ]).
  vm_compute. reflexivity.
Defined.

(** ** The tables that hold an amount *)

(** A bulk insert goes into a table whose load was begun. *)
Lemma inserts_into_loaded w p h t :
  inserts_into t (events (import_all w p h)) = true ->
  In t (load_attempts (events (import_all w p h))).
Proof.
  revert t.
  apply (keeps_import_all
           (fun tr => forall t, inserts_into t tr = true -> In t (load_attempts tr)));
    try (intros; discriminate).
  - intros a b Ha Hb t. unfold inserts_into. rewrite List.existsb_app, load_attempts_app.
    intros [H|H]%orb_true_iff; apply List.in_or_app; [left; now apply Ha|right; now apply Hb].
  - intros df table h' t. rewrite import_func_run. cbv zeta.
    destruct (empty _); [discriminate|].
    destruct (rows _); [discriminate|].
    destruct (negb _); [discriminate|].
    destruct (executemany _ _ _ _); rewrite events_pair; unfold inserts_into; simpl;
      rewrite ?orb_false_r; intros ->%String.eqb_eq; now left.
Qed.

Lemma import_all_run w p h :
  import_all w p h =
  match outcome (run_each (importers w p) h) with
  | Ok _ =>
      (events (run_each (importers w p) h) ++ [Log INFO "All data imported successfully."],
       Ok tt)
  | Raise e =>
      (events (run_each (importers w p) h) ++
       [Log ERROR ("Error during import_all: " +:+ exn_message e)], Ok tt)
  end.
Proof.
  rewrite (surjective_run (import_all w p h)), import_all_outcome.
  unfold import_all. rewrite try_except_events, bind_events, bind_outcome.
  destruct (outcome (run_each (importers w p) h)) as [[]|e];
    rewrite <- ?List.app_assoc; reflexivity.
Qed.

(** A run that comes to an importer of the five with a readable extract
    ends there. *)
Lemma run_ends_at_the_assignment w p h pre post path info error line
  (k : DataFrame -> M unit) raw :
  importers w p =
    pre ++ read_extract w path info error
             (fun raw => df <- assign_frame_to_columns p line raw ;; k df) :: post ->
  outcome (run_each pre h) = Ok tt ->
  read_csv w path = Ok raw ->
  import_all w p h =
    (events (run_each pre h) ++
     [ReadCsv path; Log INFO info;
      Log ERROR ("Error during import_all: " +:+ exn_message (columns_error p line raw))],
     Ok tt).
Proof.
  intros Himps Hpre Hread. rewrite import_all_run, Himps, run_each_app, Hpre.
  rewrite events_pair, outcome_pair.
  match goal with
  | |- context [run_each (?imp :: post)] =>
      change (run_each (imp :: post)) with (bind imp (fun _ => run_each post))
  end.
  rewrite bind_events, bind_outcome, raising_importer_run, Hread.
  rewrite events_pair, outcome_pair, List.app_nil_r, <- List.app_assoc. reflexivity.
Qed.

(** C8. No amount is ever coerced or loaded. No run of [import_all] sends
    an insert into [budget] or [journal_entry], the two tables with an
    amount. A run that comes to [_import_budget] with a readable
    [Budget.csv] ends at line 215, before the amount expression of line
    221; a run that comes to the journal importers with a readable
    [JournalEntry.csv] ends at line 283 in the first of them, so that
    [_import_journal_entry_rad], which holds the amount expression of line
    267, is not even called. *)
Theorem amounts_are_never_loaded (w : World) (p : Pipelines) (h : list event) :
  inserts_into "budget" (events (import_all w p h)) = false /\
  inserts_into "journal_entry" (events (import_all w p h)) = false /\
  (forall raw,
     read_csv w "./source/Budget.csv" = Ok raw ->
     outcome (run_each (importers_before_budget w p) h) = Ok tt ->
     import_all w p h =
       (events (run_each (importers_before_budget w p) h) ++
        [ReadCsv "./source/Budget.csv"; Log INFO "Budget data read from CSV.";
         Log ERROR ("Error during import_all: " +:+ exn_message (columns_error p 215 raw))],
        Ok tt)) /\
  (forall raw,
     read_csv w "./source/JournalEntry.csv" = Ok raw ->
     outcome (run_each (importers_before_journal w p) h) = Ok tt ->
     import_all w p h =
       (events (run_each (importers_before_journal w p) h) ++
        [ReadCsv "./source/JournalEntry.csv"; Log INFO "Journal Entry read from CSV.";
         Log ERROR ("Error during import_all: " +:+ exn_message (columns_error p 283 raw))],
        Ok tt)).
Proof.
  split; [|split; [|split]].
  - destruct (inserts_into "budget" _) eqn:E; [|reflexivity].
    apply inserts_into_loaded, list_elem_of_In in E.
    exfalso. revert E. apply never_loaded. not_reachable.
  - destruct (inserts_into "journal_entry" _) eqn:E; [|reflexivity].
    apply inserts_into_loaded, list_elem_of_In in E.
    exfalso. revert E. apply never_loaded. not_reachable.
  - intros raw Hread Hpre.
    apply (run_ends_at_the_assignment w p h (importers_before_budget w p)
              [_import_budget_rad w; _import_journal_entry w p;
               _import_journal_entry_rad w p; _import_budget_entry_admin_view w p]
              "./source/Budget.csv" "Budget data read from CSV."
              "Error reading Budget CSV: " 215%nat
              (fun df => df <- lift (budget_frame p df) ;; import_func w df "budget"));
      [reflexivity|exact Hpre|exact Hread].
  - intros raw Hread Hpre.
    apply (run_ends_at_the_assignment w p h (importers_before_journal w p)
              [_import_journal_entry_rad w p; _import_budget_entry_admin_view w p]
              "./source/JournalEntry.csv" "Journal Entry read from CSV."
              "Error reading Journal Entry CSV: " 283%nat
              (fun df => df <- lift (journal_entry_rad_head p df) ;;
                         df_result <- lift (journal_entry_rad_frame df) ;;
                         import_func w df_result "journal_entry_rad"));
      [reflexivity|exact Hpre|exact Hread].
Qed.

(** With [Budget.csv] as the only extract, holding the amount 1,234.50 and
    a blank one: the run reads it, logs the error of line 215 and is over;
    nothing is inserted. *)
Lemma amounts_are_never_loaded_witness :
  import_all budget_only rad_type_pipelines [] =
    ([ ReadCsv "./source/Account.csv";
       Log ERROR "Error Account CSV: No such file or directory";
       ReadCsv "./source/Rad.csv";
       Log ERROR "Error reading RAD CSV: No such file or directory";
       ReadCsv "./source/Rad.csv";
       Log ERROR "Error reading RAD CSV: No such file or directory";
       ReadCsv "./source/BusinessUnit.csv";
       Log ERROR "Error reading Business Unit CSV: No such file or directory";
       ReadCsv "./source/Rad_Account.csv";
       Log ERROR "Error RAD Account CSV: No such file or directory";
       ReadCsv "./source/Budget.csv";
       Log INFO "Budget data read from CSV.";
       Log ERROR ("Error during import_all: " +:+
                  exn_message (columns_error rad_type_pipelines 215 budget_extract)) ],
     Ok tt) /\
  existsb is_insert (events (import_all budget_only rad_type_pipelines [])) = false.
Proof.
  destruct (amounts_are_never_loaded budget_only rad_type_pipelines []) as (_ & _ & Hrun & _).
  rewrite (Hrun budget_extract eq_refl ltac:(vm_compute; reflexivity)).
  split; vm_compute; reflexivity.
Defined.

(** X15. No table is loaded twice in a run of [import_all], and at most ten
    loads are begun. *)
Theorem import_all_loads_each_table_once (w : World) (p : Pipelines) (h : list event) :
  NoDup (load_attempts (events (import_all w p h))) /\
  (length (load_attempts (events (import_all w p h))) <= 10)%nat.
Proof.
  assert (S : sublist (load_attempts (events (import_all w p h))) load_order).
  { rewrite import_all_load_attempts. apply run_each_sublist, importers_load_at_most. }
  split.
  - eapply sublist_NoDup; [|exact S]. apply NoDup_ListNoDup.
    unfold load_order. repeat constructor; simpl; intuition discriminate.
  - apply sublist_length in S. exact S.
Qed.

(** X16. With no extract that can be read, [import_all] reads for each importer
    in turn (once for [_import_account], which stops at its first extract),
    logs the ten errors, touches the store not at all, and then logs "All
    data imported successfully.": a skipped entity counts as imported. *)
Theorem import_all_without_extracts (w : World) (p : Pipelines) (h : list event)
  (error : string -> exn) :
  (forall path, read_csv w path = Raise (error path)) ->
  import_all w p h =
    ([ ReadCsv "./source/Account.csv";
       Log ERROR ("Error Account CSV: " +:+ exn_message (error "./source/Account.csv"));
       ReadCsv "./source/Rad.csv";
       Log ERROR ("Error reading RAD CSV: " +:+ exn_message (error "./source/Rad.csv"));
       ReadCsv "./source/Rad.csv";
       Log ERROR ("Error reading RAD CSV: " +:+ exn_message (error "./source/Rad.csv"));
       ReadCsv "./source/BusinessUnit.csv";
       Log ERROR ("Error reading Business Unit CSV: " +:+
                  exn_message (error "./source/BusinessUnit.csv"));
       ReadCsv "./source/Rad_Account.csv";
       Log ERROR ("Error RAD Account CSV: " +:+ exn_message (error "./source/Rad_Account.csv"));
       ReadCsv "./source/Budget.csv";
       Log ERROR ("Error reading Budget CSV: " +:+ exn_message (error "./source/Budget.csv"));
       ReadCsv "./source/budget.csv";
       Log ERROR ("Error reading Budget RAD CSV: " +:+ exn_message (error "./source/budget.csv"));
       ReadCsv "./source/JournalEntry.csv";
       Log ERROR ("Error reading Journal Entry CSV: " +:+
                  exn_message (error "./source/JournalEntry.csv"));
       ReadCsv "./source/JournalEntry.csv";
       Log ERROR ("Error reading Journal Entry CSV: " +:+
                  exn_message (error "./source/JournalEntry.csv"));
       ReadCsv "./source/BudgetEntryAdminView.csv";
       Log ERROR ("Error reading Budget Entry Admin View CSV: " +:+
                  exn_message (error "./source/BudgetEntryAdminView.csv"));
       Log INFO "All data imported successfully." ],
     Ok tt).
Proof.
  intros Hall.
  unfold import_all, importers, run_each, try_except, bind,
    _import_account, _import_rad_type, _import_rad, _import_business_unit,
    _import_account_rad_type, _import_budget, _import_budget_rad,
    _import_journal_entry, _import_journal_entry_rad, _import_budget_entry_admin_view.
  repeat rewrite (read_extract_unreadable _ _ _ _ _ _ _ (Hall _)).
  reflexivity.
Qed.

Lemma import_all_without_extracts_witness :
  outcome (import_all person_store rad_type_pipelines []) = Ok tt /\
  existsb is_insert (events (import_all person_store rad_type_pipelines [])) = false.
Proof.
  rewrite (import_all_without_extracts person_store rad_type_pipelines []
             (fun _ => no_such_file) (fun _ => eq_refl)).
  split; reflexivity.
Defined.

(** ** Migration.delete_all_tables and Migration.apply_schema *)

Lemma drop_each_succeeds s tables h :
  (forall h' t, In t tables -> drop_error s h' t = None) ->
  drop_each s tables h = (dropped tables, Ok tt).
Proof.
  revert h. induction tables as [|t tables IH]; intros h Hok; [reflexivity|].
  simpl drop_each. unfold bind at 1. rewrite (Hok h t) by now left.
  unfold bind at 1. unfold log_info at 1, emit at 1.
  rewrite IH by (intros h' t' Ht'; apply Hok; now right).
  reflexivity.
Qed.

Lemma drop_each_fails s before t after e h :
  (forall h' t', In t' before -> drop_error s h' t' = None) ->
  (forall h', drop_error s h' t = Some e) ->
  drop_each s (before ++ t :: after) h =
    (dropped before ++ [Execute (drop_statement t) []], Raise e).
Proof.
  revert h. induction before as [|b before IH]; intros h Hok Hfail.
  - simpl. unfold bind. now rewrite Hfail.
  - simpl drop_each. unfold bind at 1. rewrite (Hok h b) by now left.
    unfold bind at 1. unfold log_info at 1, emit at 1.
    rewrite IH; [reflexivity| |exact Hfail].
    intros h' t' Ht'. apply Hok. now right.
Qed.

(** X17. When the catalogue query answers and no [DROP] fails,
    [delete_all_tables] drops every listed table once, in the order
    listed, logs each, and commits once, after the last. *)
Theorem delete_all_tables_drops_every_table
  (s : Server) (h : list event) (tables : list string) :
  public_tables s h = Ok tables ->
  (forall h' t, In t tables -> drop_error s h' t = None) ->
  delete_all_tables s h =
    (Execute select_tables [] :: dropped tables ++
     [Commit; Log INFO "All tables deleted successfully."],
     Ok tt).
Proof.
  intros Htables Hok. unfold delete_all_tables, try_except.
  unfold bind at 1. rewrite Htables.
  unfold bind at 1. rewrite (drop_each_succeeds _ _ _ Hok).
  unfold bind, emit, log_info. simpl. now rewrite <- ?List.app_assoc.
Qed.

Lemma delete_all_tables_drops_every_table_witness :
  delete_all_tables calm_server [] =
    (Execute select_tables [] :: dropped ["account"; "rad"] ++
     [Commit; Log INFO "All tables deleted successfully."],
     Ok tt).
Proof.
  apply (delete_all_tables_drops_every_table calm_server [] ["account"; "rad"]);
    reflexivity.
Defined.

(** X18. A [DROP] that fails ends [delete_all_tables]: the tables listed after
    it are not dropped, nothing is committed, and the error is logged and
    raised again. *)
Theorem delete_all_tables_stops_at_failing_drop
  (s : Server) (h : list event) (before after : list string) (t : string) (e : exn) :
  public_tables s h = Ok (before ++ t :: after) ->
  (forall h' t', In t' before -> drop_error s h' t' = None) ->
  (forall h', drop_error s h' t = Some e) ->
  delete_all_tables s h =
    (Execute select_tables [] :: dropped before ++
     [Execute (drop_statement t) [];
      Log ERROR ("Failed to delete tables: " +:+ exn_message e)],
     Raise e) /\
  existsb is_commit (events (delete_all_tables s h)) = false.
Proof.
  intros Htables Hok Hfail.
  assert (E : delete_all_tables s h =
              (Execute select_tables [] :: dropped before ++
               [Execute (drop_statement t) [];
                Log ERROR ("Failed to delete tables: " +:+ exn_message e)],
               Raise e)).
  { unfold delete_all_tables, try_except.
    unfold bind at 1. rewrite Htables.
    unfold bind at 1. rewrite (drop_each_fails _ _ _ _ _ _ Hok Hfail).
    unfold bind, log_error, emit, raise. simpl. now rewrite <- ?List.app_assoc. }
  split; [exact E|]. rewrite E. simpl.
  rewrite List.existsb_app. simpl. rewrite orb_false_r.
  clear. induction before as [|b before IH]; [reflexivity|exact IH].
Qed.

Lemma delete_all_tables_stops_at_failing_drop_witness :
  delete_all_tables locked_server [] =
    (Execute select_tables [] :: dropped ["account"] ++
     [Execute (drop_statement "rad") [];
      Log ERROR ("Failed to delete tables: " +:+
                 exn_message (OtherError "LockNotAvailable" "could not obtain lock"))],
     Raise (OtherError "LockNotAvailable" "could not obtain lock")).
Proof.
  apply (delete_all_tables_stops_at_failing_drop locked_server [] ["account"] ["budget"] "rad"
           (OtherError "LockNotAvailable" "could not obtain lock")).
  - reflexivity.
  - intros h' t' [<-|[]]. reflexivity.
  - reflexivity.
Defined.

(** X19. [apply_schema] commits exactly when it returns, and it returns only
    after the text of the schema file was run. A schema file that cannot
    be read leaves the session untouched: the error is logged and raised
    again. *)
Theorem apply_schema_commits_iff_returns (s : Server) (schema_file : string) (h : list event) :
  (outcome (apply_schema s schema_file h) = Ok tt <->
   existsb is_commit (events (apply_schema s schema_file h)) = true) /\
  (outcome (apply_schema s schema_file h) = Ok tt ->
   exists text,
     schema_text s schema_file = Ok text /\
     events (apply_schema s schema_file h) =
       [Execute text []; Commit; Log INFO "Schema applied successfully."]) /\
  (forall e, schema_text s schema_file = Raise e ->
   apply_schema s schema_file h =
     ([Log ERROR ("Failed to apply schema: " +:+ exn_message e)], Raise e)).
Proof.
  unfold apply_schema, try_except, bind, lift, emit, raise, log_info, log_error,
    events, outcome.
  destruct (schema_text s schema_file) as [text|e0]; simpl.
  - destruct (schema_error s (h ++ []) text) as [e1|]; simpl.
    + repeat split; try discriminate.
    + repeat split; try discriminate. intros _. now exists text.
  - repeat split; try discriminate. now intros e [= <-].
Qed.

(** ** DBManager.connect and the script *)







Lemma main_connected s w p :
  psycopg2_connect s = None ->
  main s w p =
    ([PsycopgConnect "central_health" "postgres" "1234" "localhost" 5432;
      Did (Log INFO "Connected to the database.")] ++
     List.map Did (events (migrate s w p [Log INFO "Connected to the database."])),
     outcome (migrate s w p [Log INFO "Connected to the database."])).
Proof.
  intros H. unfold main, connect. rewrite H.
  now destruct (migrate s w p [Log INFO "Connected to the database."]).
Qed.

(** X20. When the connection fails the script stops there: the error goes on
    to the caller, nothing is sent to a session, and the failure is logged
    (as a warning) only if it is an [OperationalError]. *)
Theorem main_stops_when_connect_fails (s : Server) (w : World) (p : Pipelines) (e : exn) :
  psycopg2_connect s = Some e ->
  snd (main s w p) = Raise e /\
  existsb is_session_step (fst (main s w p)) = false /\
  (In (LogWarning ("Database connection failed: " +:+ exn_message e)) (fst (main s w p)) <->
   is_operational_error e = true).
Proof.
  intros H. unfold main, connect. rewrite H.
  destruct (is_operational_error e); simpl.
  - repeat split; auto.
  - repeat split; try discriminate. intros [Hc|[]]. discriminate Hc.
Qed.

Lemma main_stops_when_connect_fails_witness :
  snd (main unreachable_server journal_only rad_type_pipelines) =
    Raise (OtherError "OperationalError" "connection refused") /\
  existsb is_session_step (fst (main unreachable_server journal_only rad_type_pipelines)) = false.
Proof.
  destruct (main_stops_when_connect_fails unreachable_server journal_only rad_type_pipelines
              (OtherError "OperationalError" "connection refused") eq_refl) as (H1 & H2 & _).
  split; [exact H1|exact H2].
Defined.

(** X21. Once connected, whether the script fails is decided by the reset
    alone: its outcome is that of [delete_all_tables] followed by
    [apply_schema], whatever the extracts, the store and the pipelines of
    the import are. An import that fails never fails the script. *)
Theorem main_outcome_is_that_of_the_reset (s : Server) (w : World) (p : Pipelines) :
  psycopg2_connect s = None ->
  snd (main s w p) =
    outcome ((delete_all_tables s ;; apply_schema s "schema.sql")
               [Log INFO "Connected to the database."]).
Proof.
  intros H. rewrite (main_connected _ _ _ H). simpl snd.
  unfold migrate. rewrite !bind_outcome.
  destruct (outcome (delete_all_tables s _)) as [[]|e]; [|reflexivity].
  destruct (outcome (apply_schema s _ _)) as [[]|e]; [|reflexivity].
  apply import_all_outcome.
Qed.

Lemma main_outcome_is_that_of_the_reset_witness :
  snd (main calm_server journal_only rad_type_pipelines) = Ok tt.
Proof.
  rewrite (main_outcome_is_that_of_the_reset calm_server journal_only rad_type_pipelines eq_refl).
  reflexivity.
Defined.



(** ** Util.import_func: the introspection and the order of the fields *)

(** X23. Every call of [import_func] asks for the columns of its table anew,
    as the first thing it does, and sends no other statement than the one
    insert. *)
Theorem import_func_introspects_first
  (w : World) (df : DataFrame) (table : string) (h : list event) :
  exists rest,
    events (import_func w df table h) = Execute introspection [table] :: rest /\
    existsb is_introspection rest = false.
Proof.
  rewrite import_func_run. cbv zeta.
  destruct (empty _); [eexists; split; reflexivity|].
  destruct (rows _); [eexists; split; reflexivity|].
  destruct (negb _); [eexists; split; reflexivity|].
  destruct (executemany _ _ _ _); eexists; split; reflexivity.
Qed.

Lemma positions_from_absent i k cols :
  existsb (String.eqb k) cols = false -> positions_from i k cols = [].
Proof.
  revert i. induction cols as [|c cols IH]; intros i; [reflexivity|].
  simpl. rewrite String.eqb_sym. intros [-> H]%orb_false_iff. now apply IH.
Qed.

Lemma positions_from_unique i k cols :
  unique_labels cols = true -> In k cols ->
  exists n, positions_from i k cols = [n].
Proof.
  revert i. induction cols as [|c cols IH]; intros i Hu Hin; [contradiction|].
  simpl in Hu. apply andb_true_iff in Hu as [Hc Hu]. apply negb_true_iff in Hc.
  simpl. destruct (String.eqb_spec c k) as [->|Hne].
  - exists i. now rewrite positions_from_absent.
  - destruct Hin as [->|Hin]; [congruence|]. now apply IH.
Qed.

Lemma loaded_frame_columns_unique w df table :
  unique_labels (columns df) = true ->
  columns (loaded_frame w df table) = projection df (information_schema w table).
Proof.
  intros Hu. unfold loaded_frame. simpl columns.
  assert (G : forall keys, (forall k, In k keys -> In k (columns df)) ->
              flat_map (fun k => List.map (fun _ => k) (positions (columns df) k)) keys = keys).
  { induction keys as [|k keys IH]; intros Hk; [reflexivity|].
    simpl. destruct (positions_from_unique 0 k (columns df) Hu (Hk k (or_introl eq_refl)))
      as [n Hn].
    unfold positions at 1. rewrite Hn. simpl. f_equal. apply IH.
    intros k' Hk'. apply Hk. now right. }
  apply G. intros k Hk. now apply projection_In in Hk as [Hk _].
Qed.

(** X24. On a dataset whose labels are distinct, the fields of the insert are
    the kept labels in the order of the dataset, each once: the order of
    the schema plays no part. *)
Theorem import_func_keeps_dataset_order
  (w : World) (df : DataFrame) (table : string) (h : list event) :
  unique_labels (columns df) = true ->
  columns (loaded_frame w df table) = projection df (information_schema w table) /\
  Forall (fun e => match e with
                   | ExecuteMany q _ => fields q = projection df (information_schema w table)
                   | _ => True
                   end)
    (events (import_func w df table h)).
Proof.
  intros Hu. pose proof (loaded_frame_columns_unique w df table Hu) as E.
  split; [exact E|].
  rewrite import_func_run. cbv zeta.
  destruct (empty _); [repeat constructor|].
  destruct (rows _); [repeat constructor|].
  destruct (negb _); [repeat constructor|].
  destruct (executemany _ _ _ _); repeat constructor; exact E.
Qed.

Lemma import_func_keeps_dataset_order_witness :
  columns (loaded_frame person_store
             {| columns := ["name"; "extra"; "id"]; rows := [[Str "Ann"; Str "x"; Int 1]] |}
             "person") = ["name"; "id"].
Proof.
  apply (proj1 (import_func_keeps_dataset_order person_store
                  {| columns := ["name"; "extra"; "id"];
                     rows := [[Str "Ann"; Str "x"; Int 1]] |} "person" [] eq_refl)).
Defined.

(** ** Util.import_func: the projection on the schema *)

Lemma unique_labels_NoDup cols : unique_labels cols = true -> List.NoDup cols.
Proof.
  induction cols as [|c cols IH]; [constructor|].
  simpl. intros [Hc Hu]%andb_true_iff. apply negb_true_iff in Hc.
  constructor; [|now apply IH].
  intros Hin. assert (existsb (String.eqb c) cols = true); [|congruence].
  apply List.existsb_exists. exists c. split; [assumption|apply String.eqb_refl].
Qed.

Lemma positions_from_not_in i k cols : ~ In k cols -> positions_from i k cols = [].
Proof.
  intros H. apply positions_from_absent.
  destruct (existsb (String.eqb k) cols) eqn:E; [|reflexivity].
  apply List.existsb_exists in E as (x & Hx & ->%String.eqb_eq). contradiction.
Qed.

Lemma positions_from_app i k a b :
  positions_from i k (a ++ b) =
  positions_from i k a ++ positions_from (i + length a) k b.
Proof.
  revert i. induction a as [|c a IH]; intros i.
  - simpl. now rewrite Nat.add_0_r.
  - simpl. rewrite IH. replace (S i + length a)%nat with (i + S (length a))%nat by lia.
    now destruct (String.eqb c k).
Qed.

(** A label that occurs once stands at one position. *)
Lemma positions_middle pre c suf :
  List.NoDup (pre ++ c :: suf) -> positions (pre ++ c :: suf) c = [length pre].
Proof.
  intros H. apply List.NoDup_remove_2 in H.
  unfold positions. rewrite positions_from_app. simpl. rewrite String.eqb_refl.
  rewrite !positions_from_not_in; [reflexivity| |];
    intros Hin; apply H, List.in_or_app; auto.
Qed.

(** On distinct labels, selecting the labels of the schema takes from a
    row the cells that stand under them, in the order of the row. *)
Lemma take_cells_projection (S : gset string) suf :
  forall pre rpre rsuf,
    List.NoDup (pre ++ suf) ->
    length rpre = length pre ->
    length rsuf = length suf ->
    take_cells (flat_map (positions (pre ++ suf))
                  (List.filter (fun c => bool_decide (c ∈ S)) suf)) (rpre ++ rsuf) =
    List.map snd (List.filter (fun cx => bool_decide (fst cx ∈ S)) (combine suf rsuf)).
Proof.
  induction suf as [|c suf IH]; intros pre rpre rsuf Hnd Hpre Hsuf; [reflexivity|].
  destruct rsuf as [|x rsuf]; [discriminate|]. injection Hsuf as Hsuf.
  assert (Hrest :
    take_cells (flat_map (positions (pre ++ c :: suf))
                  (List.filter (fun c => bool_decide (c ∈ S)) suf)) (rpre ++ x :: rsuf) =
    List.map snd (List.filter (fun cx => bool_decide (fst cx ∈ S)) (combine suf rsuf))).
  { replace (pre ++ c :: suf) with ((pre ++ [c]) ++ suf) by now rewrite <- List.app_assoc.
    replace (rpre ++ x :: rsuf) with ((rpre ++ [x]) ++ rsuf) by now rewrite <- List.app_assoc.
    apply IH; [now rewrite <- List.app_assoc| |exact Hsuf].
    rewrite !List.length_app. simpl. lia. }
  simpl. destruct (bool_decide (c ∈ S)); [|exact Hrest].
  simpl. unfold take_cells in *. rewrite List.map_app, Hrest.
  rewrite (positions_middle pre c suf Hnd). simpl. f_equal.
  rewrite List.app_nth2 by lia. now rewrite Hpre, Nat.sub_diag.
Qed.

Lemma loaded_frame_cells w df table :
  unique_labels (columns df) = true ->
  Forall (fun row => length row = length (columns df)) (rows df) ->
  rows (loaded_frame w df table) =
  List.map (fun row =>
              List.map (fun cx => blank_to_none (nan_to_none (snd cx)))
                (List.filter (fun cx => bool_decide (fst cx ∈ information_schema w table))
                   (combine (columns df) row)))
    (rows df).
Proof.
  intros Hu Hrect. rewrite loaded_frame_rows. apply List.map_ext_in. intros row Hrow.
  rewrite List.Forall_forall in Hrect.
  unfold projection.
  pose proof (take_cells_projection (information_schema w table) (columns df) [] [] row) as T.
  cbn [app] in T.
  rewrite T; [|now apply unique_labels_NoDup|reflexivity|now apply Hrect].
  now rewrite !List.map_map.
Qed.

(** The cases in which [import_func] sends its insert. *)
Lemma import_func_insert_sent w df table h :
  (exists q rs, In (ExecuteMany q rs) (events (import_func w df table h))) <->
  empty (loaded_frame w df table) = false.
Proof.
  rewrite import_func_run. cbv zeta.
  destruct (empty (loaded_frame w df table)) eqn:He.
  { split; [|discriminate]. intros (q & rs & [H|[H|[]]]); discriminate H. }
  destruct (rows (loaded_frame w df table)) as [|row0 rs0] eqn:Hrows.
  { unfold empty in He. rewrite Hrows in He. now destruct (columns _). }
  rewrite (loaded_frame_first_row _ _ _ _ _ Hrows).
  split; [reflexivity|]. intros _.
  destruct (executemany _ _ _ _); do 2 eexists; right; left; reflexivity.
Qed.

Lemma import_func_insert_is w df table h q rs :
  In (ExecuteMany q rs) (events (import_func w df table h)) ->
  q = {| into := table; fields := columns (loaded_frame w df table) |} /\
  rs = rows (loaded_frame w df table).
Proof.
  rewrite import_func_run. cbv zeta.
  destruct (empty _); [intros [H|[H|[]]]; discriminate H|].
  destruct (rows (loaded_frame w df table)) as [|row0 rs0];
    [intros [H|[H|[]]]; discriminate H|].
  destruct (negb _); [intros [H|[H|[]]]; discriminate H|].
  destruct (executemany _ _ _ _); rewrite events_pair;
    intros [H|[H|H]]; try discriminate H.
  - now injection H as <- <-.
  - destruct H as [H|[]]. discriminate H.
  - now injection H as <- <-.
  - destruct H as [H|[H|[]]]; discriminate H.
Qed.

(** C6. What [import_func] inserts has exactly the columns that the
    dataset and the introspected schema share: an insert goes into the
    table named, and its fields are, as a set, the intersection of the
    dataset's labels and the schema's columns. The insert is sent exactly
    when the dataset has a row and shares a column with the schema. On a
    dataset with distinct labels (and full rows) the fields are the shared
    labels in the order of the dataset, and the rows inserted are the
    rows of the dataset without the cells of the other columns, a missing
    or blank cell turned into [None]: a column the schema lacks is dropped
    with its cells, and nothing is added. *)
Theorem import_func_loads_the_intersection
  (w : World) (df : DataFrame) (table : string) (h : list event) :
  let S := information_schema w table in
  let run := import_func w df table h in
  (forall q rs,
     In (ExecuteMany q rs) (events run) ->
     into q = table /\
     (list_to_set (fields q) : gset string) = list_to_set (columns df) ∩ S) /\
  ((exists q rs, In (ExecuteMany q rs) (events run)) <->
   rows df <> [] /\ exists c, In c (columns df) /\ c ∈ S) /\
  (unique_labels (columns df) = true ->
   Forall (fun row => length row = length (columns df)) (rows df) ->
   forall q rs,
     In (ExecuteMany q rs) (events run) ->
     fields q = List.filter (fun c => bool_decide (c ∈ S)) (columns df) /\
     rs = List.map (fun row =>
                      List.map (fun cx => blank_to_none (nan_to_none (snd cx)))
                        (List.filter (fun cx => bool_decide (fst cx ∈ S))
                           (combine (columns df) row)))
            (rows df)).
Proof.
  intros S run. split; [|split].
  - intros q rs Hin. apply import_func_insert_is in Hin as [-> _]. split; [reflexivity|].
    simpl fields. apply set_eq. intros c.
    rewrite elem_of_intersection, !elem_of_list_to_set, !list_elem_of_In.
    apply loaded_frame_columns.
  - unfold run. rewrite import_func_insert_sent. unfold empty.
    rewrite loaded_frame_rows.
    destruct (columns (loaded_frame w df table)) as [|c cs] eqn:Hcols.
    + split; [discriminate|]. intros [_ (c & Hc & HS)]. exfalso.
      assert (Hin : In c (columns (loaded_frame w df table)))
        by now apply loaded_frame_columns.
      now rewrite Hcols in Hin.
    + assert (Hc : In c (columns (loaded_frame w df table))) by (rewrite Hcols; now left).
      apply loaded_frame_columns in Hc.
      destruct (rows df) as [|r rs]; simpl.
      * split; [discriminate|]. now intros [H _].
      * split; [|reflexivity]. intros _. split; [discriminate|]. now exists c.
  - intros Hu Hrect q rs Hin. apply import_func_insert_is in Hin as [-> ->].
    split; [now apply loaded_frame_columns_unique|now apply loaded_frame_cells].
Qed.

(** Scenario C of the specification: the column [extra], which the table
    [person] lacks, is dropped; both rows are inserted. *)
Lemma import_func_loads_the_intersection_witness :
  exists q rs,
    In (ExecuteMany q rs)
      (events (import_func person_store
                 {| columns := ["id"; "name"; "extra"];
                    rows := [[Int 1; Str "Ann"; Str "x"]; [Int 2; Str ""; NaN]] |}
                 "person" [])) /\
    fields q = ["id"; "name"] /\
    rs = [[Int 1; Str "Ann"]; [Int 2; PyNone]].
Proof.
  destruct (import_func_loads_the_intersection person_store
              {| columns := ["id"; "name"; "extra"];
                 rows := [[Int 1; Str "Ann"; Str "x"]; [Int 2; Str ""; NaN]] |}
              "person" []) as (_ & Hsent & Hcells).
  destruct (proj2 Hsent) as (q & rs & Hin).
  { split; [discriminate|]. exists "id". split; [now left|]. vm_compute. reflexivity. }
  exists q, rs. split; [exact Hin|].
  destruct (Hcells eq_refl ltac:(repeat constructor) q rs Hin) as [-> ->].
  split; vm_compute; reflexivity.
Defined.

(** ** The melter: order of the rows *)

Lemma parent_ids_app a b : parent_ids (a ++ b) = parent_ids a ++ parent_ids b.
Proof. apply List.map_app. Qed.

Lemma parent_ids_melt_row family cols i row :
  Forall (eq (Z.of_nat i + 1)%Z) (parent_ids (melt_row family cols i row)).
Proof.
  apply List.Forall_forall. intros z Hz. unfold parent_ids in Hz.
  apply List.in_map_iff in Hz as (r & <- & Hr).
  now apply melt_row_shape in Hr as (v & -> & _).
Qed.

Lemma sorted_after_equal (x : Z) l1 l2 :
  Forall (eq x) l1 -> Forall (Z.le x) l2 -> StronglySorted Z.le l2 ->
  StronglySorted Z.le (l1 ++ l2).
Proof.
  intros H1 H2 S. induction l1 as [|y l1 IH]; [exact S|].
  apply List.Forall_cons_iff in H1 as [<- H1].
  simpl. constructor; [now apply IH|].
  apply List.Forall_app. split; [|exact H2].
  eapply List.Forall_impl; [|exact H1]. intros z <-. lia.
Qed.

Lemma melt_rows_sorted family cols start rs :
  StronglySorted Z.le (parent_ids (melt_rows family cols start rs)) /\
  Forall (Z.le (Z.of_nat start + 1)) (parent_ids (melt_rows family cols start rs)).
Proof.
  unfold melt_rows. revert start. induction rs as [|r rs IH]; intros start.
  - split; constructor.
  - simpl. rewrite parent_ids_app. destruct (IH (S start)) as [S1 F1]. split.
    + apply sorted_after_equal with (x := (Z.of_nat start + 1)%Z);
        [apply parent_ids_melt_row| |exact S1].
      eapply List.Forall_impl; [|exact F1]. intros z Hz. lia.
    + apply List.Forall_app. split.
      * eapply List.Forall_impl; [|apply parent_ids_melt_row]. intros z <-. lia.
      * eapply List.Forall_impl; [|exact F1]. intros z Hz. lia.
Qed.

(** X25. The rows the budget melter emits come in the order of the extract:
    their parent ids never decrease, so the rows of one budget line stand
    together. *)
Theorem budget_rad_frame_follows_extract_order (raw df_result : DataFrame) :
  budget_rad_frame raw = Ok df_result ->
  StronglySorted Z.le (parent_ids (rows df_result)).
Proof.
  unfold budget_rad_frame, melt.
  destruct (rows (sanitize_columns raw)); [discriminate|].
  destruct (unique_labels _); [|discriminate].
  intros [= <-]. apply melt_rows_sorted.
Qed.

Lemma budget_rad_frame_follows_extract_order_witness :
  StronglySorted Z.le (parent_ids [[Int 1; Str "10"]; [Int 1; Str "20"]; [Int 2; Str "30"]]).
Proof.
  apply (budget_rad_frame_follows_extract_order
           {| columns := ["RAD 1"; "RAD 2"];
              rows := [[Str "10"; Str "20"]; [Str "30"; NaN]] |}
           {| columns := ["budget_id"; "rad_id"];
              rows := [[Int 1; Str "10"]; [Int 1; Str "20"]; [Int 2; Str "30"]] |}
           eq_refl).
Defined.

(** ** _import_rad_type: the type lines of the RAD extract *)





(** X26. The type lines are made only when the normalised extract has both a
    [rad_type_id] and a [rad_type] column; otherwise the selection raises
    and nothing is made. *)
Theorem rad_type_lines_needs_both_columns (raw : DataFrame) :
  is_ok (rad_type_lines raw) = true <->
  In "rad_type_id" (columns (sanitize_columns raw)) /\
  In "rad_type" (columns (sanitize_columns raw)).
Proof.
  unfold rad_type_lines, getitem. cbn [List.find].
  assert (X : forall k cols, existsb (String.eqb k) cols = true <-> In k cols).
  { intros k cols. rewrite List.existsb_exists. split.
    - intros (x & Hx & E). apply String.eqb_eq in E. now subst.
    - intros H. exists k. split; [assumption|apply String.eqb_refl]. }
  destruct (existsb (String.eqb "rad_type_id") (columns (sanitize_columns raw))) eqn:E1;
    cbn [negb is_ok].
  - apply X in E1.
    destruct (existsb (String.eqb "rad_type") (columns (sanitize_columns raw))) eqn:E2;
      cbn [negb is_ok].
    + apply X in E2. tauto.
    + split; [discriminate|]. intros [_ H]. apply X in H. congruence.
  - split; [discriminate|]. intros [H _]. apply X in H. congruence.
Qed.



(** ** _import_account_rad_type: the query for the accounts *)

(** X28. When the query for the accounts fails, [_import_account_rad_type]
    raises the error of the store, logged once by [execute_query]: the
    extract was read, but the load of [account_rad_type] is not begun, and
    the error is not taken for an unreadable extract. *)
Theorem _import_account_rad_type_needs_the_accounts
  (w : World) (p : Pipelines) (h : list event) (raw rad_account : DataFrame) (e : exn) :
  read_csv w "./source/Rad_Account.csv" = Ok raw ->
  rad_account_frame p raw = Ok rad_account ->
  (forall h', read_sql w h' "SELECT id, account_no FROM account;" = Raise e) ->
  _import_account_rad_type w p h =
    ([ ReadCsv "./source/Rad_Account.csv";
       Log INFO "RAD Account data read from CSV.";
       ReadSql "SELECT id, account_no FROM account;";
       Log ERROR ("Error from query:" +:+ newline +:+ "SELECT id, account_no FROM account;"
                  +:+ newline +:+ " " +:+ exn_message e) ],
     Raise e).
Proof.
  intros Hread Hframe Hsql.
  unfold _import_account_rad_type, read_extract, read_step, execute_query,
    try_except, bind, lift, log_info, log_exception, emit, ret, raise.
  rewrite Hread. cbn [fst snd app]. rewrite Hframe. cbn [fst snd app].
  rewrite Hsql. reflexivity.
Qed.

Lemma _import_account_rad_type_needs_the_accounts_witness :
  outcome (_import_account_rad_type accounts_missing rad_account_pipelines []) =
    Raise no_such_relation.
Proof.
  unfold outcome.
  rewrite (_import_account_rad_type_needs_the_accounts
             accounts_missing rad_account_pipelines []
             {| columns := ["Account No"]; rows := [[Int 1]] |}
             (sanitize_columns {| columns := ["Account No"]; rows := [[Int 1]] |})
             no_such_relation eq_refl eq_refl (fun _ => eq_refl)).
  reflexivity.
Defined.
